(** * Model factory: a shallow embedding of [src/model_factory.py]

    The Python module wraps two scikit-learn classifiers behind a small
    base class ([ModelBase]: train / predict / evaluate / save / load) and a
    string-keyed factory ([get_model]).

    The embedding keeps what the wrapper itself does:
    - Python objects live in a heap and are named by references, so that
      "fits in place", "replaces the classifier" and "a fresh instance" can
      be stated;
    - an instance is its class together with its attribute dictionary;
    - every method is a computation over the world (heap and file system)
      that either returns a value or raises an exception; the world
      survives a raise, as it does in Python.

    scikit-learn, pickle and float arithmetic are not part of the module;
    they are interfaces here ([Float], [Sklearn], [Pickle]).  A small
    executable instance of the three is given so that every statement can
    be run on concrete data. *)

From Stdlib Require Import ZArith QArith String Ascii List.
From Stdlib Require Import Init.Byte.
From stdpp Require Import base option gmap strings list fin_maps.

Local Open Scope Z_scope.
Local Open Scope string_scope.

(** ** Exceptions and results *)

(** The exceptions that can cross the wrapper.  [ValueError] is what the
    wrapper and the factory raise themselves; [NotFittedError] is
    scikit-learn's, raised by an estimator used before [fit]; [Raised] is
    any other exception of the numerical backend. *)
Inductive exn : Type :=
| ValueError (msg : string)
| NotFittedError (msg : string)
| AttributeError (msg : string)
| OSError (path : string)
| UnpicklingError
| PicklingError
| ZeroDivisionError
| Raised (cls msg : string).

(** [isinstance(e, ValueError)]: scikit-learn declares
    [class NotFittedError(ValueError, AttributeError)]. *)
Definition is_ValueError (e : exn) : bool :=
  match e with
  | ValueError _ | NotFittedError _ => true
  | _ => false
  end.

Inductive result (A : Type) : Type :=
| Ok (a : A)
| Err (e : exn).
Arguments Ok {A} a.
Arguments Err {A} e.

Definition raises {A} (r : result A) : Prop := exists e, r = Err e.

(** ** The interfaces the module imports *)

(** Python floats, as far as [evaluate] uses them.  Division is the one
    operation that may raise. *)
Class Float := {
  number : Type;
  num_of_int : Z -> number;
  num_add : number -> number -> number;
  num_mul : number -> number -> number;
  num_div : number -> number -> result number;
  num_gt : number -> number -> bool
}.

(** The [average] keyword of [precision_score] and [recall_score]. *)
Inductive average : Type := binary | micro | macro | weighted | samples.

(** Constructor calls as the module writes them: the keyword arguments it
    passes, all other hyperparameters left to the library. *)
Inductive hyper : Type :=
| DecisionTreeClassifier (max_depth random_state : Z)
| RandomForestClassifier (n_estimators max_depth random_state : Z).

Definition hyper_class (h : hyper) : string :=
  match h with
  | DecisionTreeClassifier _ _ => "DecisionTreeClassifier"
  | RandomForestClassifier _ _ _ => "RandomForestClassifier"
  end.

(** scikit-learn: arrays, what [fit] learns, inference and the two metrics. *)
Class Sklearn `{Float} := {
  ndarray : Type;
  fitted : Type;
  learn : hyper -> ndarray -> ndarray -> result fitted;
  infer : hyper -> fitted -> ndarray -> result ndarray;
  precision_score : ndarray -> ndarray -> average -> Z -> result number;
  recall_score : ndarray -> ndarray -> average -> Z -> result number
}.

(** An estimator object: its hyperparameters and, once [fit] has run, the
    learned state. *)
Record estimator `{Sklearn} : Type := Estimator_ {
  params : hyper;
  learned : option fitted
}.
Arguments Estimator_ {_ _} params learned.

(** What [pickle] can write and read back in this development. *)
Inductive pickled `{Sklearn} : Type :=
| PNone
| PStr (s : string)
| PEstimator (e : estimator).

Class Pickle `{Sklearn} := {
  pickle_dumps : pickled -> list byte;
  pickle_loads : list byte -> result pickled
}.

(** ** [repr] of strings and lists of strings *)

Definition squote : ascii := "'"%char.
Definition dquote : ascii := "034"%char.
Definition bslash : ascii := "\"%char.

Fixpoint contains (c : ascii) (s : string) : bool :=
  match s with
  | EmptyString => false
  | String c' s' => Ascii.eqb c c' || contains c s'
  end.

Definition hex_digit (n : N) : ascii :=
  ascii_of_N (if (n <? 10)%N then 48 + n else 87 + n).

(** One character inside quotes [q].  Bytes above 127 are left as they are
    (printable non-ASCII text is not escaped by Python either). *)
Definition repr_char (q c : ascii) : string :=
  let n := N_of_ascii c in
  if Ascii.eqb c bslash then String bslash (String bslash "")
  else if Ascii.eqb c q then String bslash (String q "")
  else if (n =? 10)%N then String bslash "n"
  else if (n =? 13)%N then String bslash "r"
  else if (n =? 9)%N then String bslash "t"
  else if ((n <? 32) || (n =? 127))%N
       then String bslash (String "x" (String (hex_digit (n / 16))
                                              (String (hex_digit (n mod 16)) "")))
  else String c "".

Fixpoint repr_chars (q : ascii) (s : string) : string :=
  match s with
  | EmptyString => ""
  | String c s' => repr_char q c ++ repr_chars q s'
  end.

(** [repr(s)]: single quotes, unless the text has a single quote and no
    double quote. *)
Definition repr_str (s : string) : string :=
  let q := if contains squote s && negb (contains dquote s) then dquote else squote in
  String q (repr_chars q s ++ String q "").

Fixpoint join (sep : string) (l : list string) : string :=
  match l with
  | [] => ""
  | [x] => x
  | x :: l' => x ++ sep ++ join sep l'
  end.

(** [repr(l)] for a list of strings. *)
Definition repr_list (l : list string) : string :=
  "[" ++ join ", " (map repr_str l) ++ "]".

(** ** Heap, file system and the computation monad *)

Abbreviation loc := positive.

(** Attribute values. *)
Inductive value : Type :=
| VNone
| VStr (s : string)
| VRef (l : loc).

Inductive class : Type := ModelBase | DecisionTreeModel | RandomForestModel.

Section Model.
Context {FL : Float} {SK : Sklearn} {PK : Pickle}.

(** A heap cell: an instance of one of the module's classes with its
    [__dict__], or a scikit-learn estimator. *)
Inductive pyobj : Type :=
| Object (cls : class) (attrs : gmap string value)
| Estimator (e : estimator).

Record world : Type := World {
  heap : gmap loc pyobj;
  files : gmap string (list byte);
  unwritable : gset string
}.

Definition py (A : Type) : Type := world -> result A * world.

Definition ret {A} (a : A) : py A := fun w => (Ok a, w).
Definition raise {A} (e : exn) : py A := fun w => (Err e, w).
Definition bind {A B} (c : py A) (k : A -> py B) : py B :=
  fun w => match c w with
           | (Ok a, w') => k a w'
           | (Err e, w') => (Err e, w')
           end.
Definition lift {A} (r : result A) : py A := fun w => (r, w).

#[export] Instance py_ret : MRet py := @ret.
#[export] Instance py_bind : MBind py := fun A B k c => bind c k.

Definition with_heap (f : gmap loc pyobj -> gmap loc pyobj) (w : world) : world :=
  World (f (heap w)) (files w) (unwritable w).
Definition with_files (f : gmap string (list byte) -> gmap string (list byte))
    (w : world) : world :=
  World (heap w) (f (files w)) (unwritable w).

(** Object allocation: a reference no live object has. *)
Definition alloc (o : pyobj) : py loc :=
  fun w => let l := fresh (dom (heap w)) in (Ok l, with_heap <[l := o]> w).

(** [obj.name] *)
Definition getattr (self : loc) (name : string) : py value :=
  fun w => match heap w !! self with
           | Some (Object _ attrs) =>
               match attrs !! name with
               | Some v => (Ok v, w)
               | None => (Err (AttributeError name), w)
               end
           | _ => (Err (AttributeError name), w)
           end.

(** [obj.name = v] *)
Definition setattr (self : loc) (name : string) (v : value) : py unit :=
  fun w => match heap w !! self with
           | Some (Object cls attrs) =>
               (Ok tt, with_heap <[self := Object cls (<[name := v]> attrs)]> w)
           | _ => (Err (AttributeError name), w)
           end.

Definition is_None (v : value) : bool :=
  match v with VNone => true | _ => false end.

(** ** scikit-learn estimator methods *)

Definition not_fitted_msg (h : hyper) : string :=
  "This " ++ hyper_class h ++
  " instance is not fitted yet. Call 'fit' with appropriate arguments before using this estimator.".

(** [clf.fit(X, y)]: learns and stores the result in the same object.  A
    [fit] that raises is taken to leave the estimator as it was. *)
Definition fit (clf : value) (X y : ndarray) : py unit :=
  fun w => match clf with
           | VRef l =>
               match heap w !! l with
               | Some (Estimator e) =>
                   match learn (params e) X y with
                   | Ok st => (Ok tt, with_heap
                                 <[l := Estimator (Estimator_ (params e) (Some st))]> w)
                   | Err x => (Err x, w)
                   end
               | _ => (Err (AttributeError "fit"), w)
               end
           | _ => (Err (AttributeError "fit"), w)
           end.

(** [clf.predict(X)]: [check_is_fitted] first, then inference. *)
Definition estimator_predict (clf : value) (X : ndarray) : py ndarray :=
  fun w => match clf with
           | VRef l =>
               match heap w !! l with
               | Some (Estimator e) =>
                   match learned e with
                   | Some st => (infer (params e) st X, w)
                   | None => (Err (NotFittedError (not_fitted_msg (params e))), w)
                   end
               | _ => (Err (AttributeError "predict"), w)
               end
           | _ => (Err (AttributeError "predict"), w)
           end.

(** ** Files and pickle *)

(** [open(filepath, 'wb')]: raises on a path that cannot be written,
    otherwise creates or truncates the file. *)
Definition open_wb (filepath : string) : py unit :=
  fun w => if decide (filepath ∈ unwritable w)
           then (Err (OSError filepath), w)
           else (Ok tt, with_files <[filepath := []]> w).

(** [open(filepath, 'rb')] followed by reading the whole file. *)
Definition open_rb (filepath : string) : py (list byte) :=
  fun w => match files w !! filepath with
           | Some bs => (Ok bs, w)
           | None => (Err (OSError filepath), w)
           end.

(** The picklable content of an attribute value.  An instance of one of the
    module's own classes stored in an attribute is not covered; no operation
    of the module stores one. *)
Definition to_pickled (v : value) : py pickled :=
  fun w => match v with
           | VNone => (Ok PNone, w)
           | VStr s => (Ok (PStr s), w)
           | VRef l =>
               match heap w !! l with
               | Some (Estimator e) => (Ok (PEstimator e), w)
               | _ => (Err PicklingError, w)
               end
           end.

(** [f.write(bs)] on a file opened at [filepath]. *)
Definition write (filepath : string) (bs : list byte) : py unit :=
  fun w => (Ok tt, with_files <[filepath := bs]> w).

(** [pickle.dump(obj, f)] on a file opened at [filepath]. *)
Definition pickle_dump (obj : value) (filepath : string) : py unit :=
  p ← to_pickled obj;
  write filepath (pickle_dumps p).

(** [pickle.load(f)]: the deserialized value is a new object. *)
Definition pickle_load (bs : list byte) : py value :=
  p ← lift (pickle_loads bs);
  match p with
  | PNone => mret VNone
  | PStr s => mret (VStr s)
  | PEstimator e => l ← alloc (Estimator e); mret (VRef l)
  end.

(** ** class ModelBase *)

Definition ModelBase__init__ (self : loc) : py unit :=
  setattr self "model" VNone;;
  setattr self "model_name" (VStr "BaseModel").

Definition train (self : loc) (X_train y_train : ndarray) : py unit :=
  m ← getattr self "model";
  if is_None m then raise (ValueError "Model not initialized")
  else clf ← getattr self "model"; fit clf X_train y_train.

Definition predict (self : loc) (X : ndarray) : py ndarray :=
  m ← getattr self "model";
  if is_None m then raise (ValueError "Model not trained")
  else clf ← getattr self "model"; estimator_predict clf X.

(** A value of the dictionary [evaluate] returns: a float, or the integer
    literal of the [else] branch. *)
Inductive metric : Type :=
| MFloat (x : number)
| MInt (z : Z).

Definition evaluate (self : loc) (X_test y_test : ndarray)
    : py (list (string * metric)) :=
  y_pred ← predict self X_test;
  precision ← lift (precision_score y_test y_pred weighted 0);
  recall ← lift (recall_score y_test y_pred weighted 0);
  f1 ← (if num_gt (num_add precision recall) (num_of_int 0)
        then q ← lift (num_div (num_mul (num_of_int 2) (num_mul precision recall))
                               (num_add precision recall));
             mret (MFloat q)
        else mret (MInt 0));
  mret [("precision", MFloat precision);
        ("recall", MFloat recall);
        ("f1_score", f1)].

Definition save (self : loc) (filepath : string) : py unit :=
  open_wb filepath;;
  m ← getattr self "model";
  pickle_dump m filepath.

Definition load (self : loc) (filepath : string) : py unit :=
  bs ← open_rb filepath;
  v ← pickle_load bs;
  setattr self "model" v.

(** ** The two variants *)

(** Calling a class: a new object with an empty [__dict__], then
    [__init__] on it. *)
Definition new (cls : class) (init : loc -> py unit) : py loc :=
  self ← alloc (Object cls ∅);
  init self;;
  mret self.

(** An estimator constructor only records its hyperparameters. *)
Definition new_estimator (h : hyper) : py value :=
  l ← alloc (Estimator (Estimator_ h None));
  mret (VRef l).

(** An omitted keyword argument is [None] here and takes the default of the
    signature. *)
Definition DecisionTreeModel__init__ (self : loc)
    (max_depth random_state : option Z) : py unit :=
  let max_depth := default 10 max_depth in
  let random_state := default 42 random_state in
  ModelBase__init__ self;;
  clf ← new_estimator (DecisionTreeClassifier max_depth random_state);
  setattr self "model" clf;;
  setattr self "model_name" (VStr "DecisionTree").

Definition RandomForestModel__init__ (self : loc)
    (n_estimators max_depth random_state : option Z) : py unit :=
  let n_estimators := default 100 n_estimators in
  let max_depth := default 10 max_depth in
  let random_state := default 42 random_state in
  ModelBase__init__ self;;
  clf ← new_estimator (RandomForestClassifier n_estimators max_depth random_state);
  setattr self "model" clf;;
  setattr self "model_name" (VStr "RandomForest").

(** [cls()]: every class of the module can be called without arguments. *)
Definition call (cls : class) : py loc :=
  match cls with
  | ModelBase => new ModelBase ModelBase__init__
  | DecisionTreeModel =>
      new DecisionTreeModel (fun self => DecisionTreeModel__init__ self None None)
  | RandomForestModel =>
      new RandomForestModel (fun self => RandomForestModel__init__ self None None None)
  end.

(** ** The factory *)

Definition models : list (string * class) :=
  [("decision_tree", DecisionTreeModel);
   ("random_forest", RandomForestModel)].

Fixpoint dict_get {V} (d : list (string * V)) (k : string) : option V :=
  match d with
  | [] => None
  | (k', v) :: d' => if String.eqb k k' then Some v else dict_get d' k
  end.

Definition keys {V} (d : list (string * V)) : list string := map fst d.

Definition get_model (model_type : string) : py loc :=
  match dict_get models model_type with
  | None =>
      raise (ValueError ("Unknown model type: " ++ model_type ++
                         ". Available: " ++ repr_list (keys models)))
  | Some cls => call cls
  end.

(** ** Lifecycle vocabulary *)

(** The three states of an instance, read off its classifier: none at all,
    one that was never fitted, one that was. *)
Inductive lifecycle : Type := uninitialized | untrained | trained.

Definition state_of (w : world) (self : loc) : option lifecycle :=
  match heap w !! self with
  | Some (Object _ attrs) =>
      match attrs !! "model" with
      | Some VNone => Some uninitialized
      | Some (VRef l) =>
          match heap w !! l with
          | Some (Estimator e) =>
              Some (match learned e with Some _ => trained | None => untrained end)
          | _ => None
          end
      | _ => None
      end
  | _ => None
  end.

(** The attribute of an instance, as an observation on a world. *)
Definition attr (w : world) (self : loc) (name : string) : option value :=
  match heap w !! self with
  | Some (Object _ attrs) => attrs !! name
  | _ => None
  end.

Definition class_of (w : world) (self : loc) : option class :=
  match heap w !! self with
  | Some (Object cls _) => Some cls
  | _ => None
  end.

(** ** Calls of the public interface *)

(** One call a client can make: a class called with its keyword arguments,
    the factory, or a method on a reference. *)
Inductive api_call : Type :=
| Call_ModelBase
| Call_DecisionTreeModel (max_depth random_state : option Z)
| Call_RandomForestModel (n_estimators max_depth random_state : option Z)
| Call_get_model (model_type : string)
| Call_train (self : loc) (X_train y_train : ndarray)
| Call_predict (self : loc) (X : ndarray)
| Call_evaluate (self : loc) (X_test y_test : ndarray)
| Call_save (self : loc) (filepath : string)
| Call_load (self : loc) (filepath : string).

(** The world a call leaves behind, whether it returns or raises. *)
Definition exec (c : api_call) (w : world) : world :=
  match c with
  | Call_ModelBase => (new ModelBase ModelBase__init__ w).2
  | Call_DecisionTreeModel md rs =>
      (new DecisionTreeModel (fun self => DecisionTreeModel__init__ self md rs) w).2
  | Call_RandomForestModel ne md rs =>
      (new RandomForestModel (fun self => RandomForestModel__init__ self ne md rs) w).2
  | Call_get_model model_type => (get_model model_type w).2
  | Call_train self X y => (train self X y w).2
  | Call_predict self X => (predict self X w).2
  | Call_evaluate self X y => (evaluate self X y w).2
  | Call_save self filepath => (save self filepath w).2
  | Call_load self filepath => (load self filepath w).2
  end.

(** A client program: calls one after the other, exceptions caught. *)
Definition run (cs : list api_call) (w : world) : world :=
  fold_left (fun w c => exec c w) cs w.

(** ** Ownership of classifiers *)

(** Instance [self] holds classifier object [c] in its [model] attribute. *)
Definition owns (w : world) (self c : loc) : Prop :=
  attr w self "model" = Some (VRef c).

(** Every [model] reference leads to an estimator, and no estimator is held
    by two instances. *)
Definition well_formed (w : world) : Prop :=
  (forall self c, owns w self c -> exists e, heap w !! c = Some (Estimator e)) /\
  (forall a b c, owns w a c -> owns w b c -> a = b).

End Model.

(** ** An executable backend

    A one-feature nearest-neighbour classifier over integers, exact rational
    metrics, and a byte-level serializer.  It stands in for scikit-learn,
    pickle and floats wherever a statement is run on concrete data. *)

Module Tiny.

Local Open Scope Z_scope.
Local Open Scope list_scope.

Definition Qgt_bool (a b : Q) : bool := negb (Qle_bool a b).

#[export] Instance float : Float := {|
  number := Q;
  num_of_int := fun z => inject_Z z;
  num_add := fun a b => Qred (Qplus a b);
  num_mul := fun a b => Qred (Qmult a b);
  num_div := fun a b => if Qeq_bool b (inject_Z 0) then Err ZeroDivisionError
                        else Ok (Qred (Qdiv a b));
  num_gt := Qgt_bool
|}.

(** The training pair closest to [x]; earlier pairs win ties. *)
Fixpoint nearest (best : Z * Z) (tr : list (Z * Z)) (x : Z) : Z * Z :=
  match tr with
  | [] => best
  | p :: tr' =>
      nearest (if Z.abs (fst p - x) <? Z.abs (fst best - x) then p else best) tr' x
  end.

Definition tiny_learn (h : hyper) (X y : list Z) : result (list (Z * Z)) :=
  if negb (length X =? length y)%nat
  then Err (ValueError "Found input variables with inconsistent numbers of samples")
  else match X with
       | [] => Err (ValueError "Found array with 0 sample(s)")
       | _ => Ok (combine X y)
       end.

Definition tiny_infer (h : hyper) (st : list (Z * Z)) (X : list Z) : result (list Z) :=
  match st with
  | [] => Err (ValueError "empty training set")
  | p :: tr => Ok (map (fun x => snd (nearest p tr x)) X)
  end.

Definition count (f : Z * Z -> bool) (l : list (Z * Z)) : Z :=
  Z.of_nat (length (filter (fun p => f p = true) l)).

Fixpoint dedup (l : list Z) : list Z :=
  match l with
  | [] => []
  | x :: l' => if existsb (Z.eqb x) l' then dedup l' else x :: dedup l'
  end.

Definition ratio (zero_division n d : Z) : Q :=
  if d =? 0 then inject_Z zero_division else Qred (Qmake n (Z.to_pos d)).

(** Per-class score averaged with the class frequencies of [y_true] as
    weights; [per_class c pairs] gives numerator and denominator. *)
Definition weighted_score (per_class : Z -> list (Z * Z) -> Z * Z)
    (y_true y_pred : list Z) (avg : average) (zero_division : Z) : result Q :=
  match avg with
  | weighted =>
      if negb (length y_true =? length y_pred)%nat
      then Err (ValueError "Found input variables with inconsistent numbers of samples")
      else
        let pairs := combine y_true y_pred in
        let total := Z.of_nat (length y_true) in
        let term c :=
          let support := count (fun p => fst p =? c) pairs in
          let '(n, d) := per_class c pairs in
          Qmult (inject_Z support) (ratio zero_division n d) in
        let sum := fold_right (fun c acc => Qplus (term c) acc) (inject_Z 0)
                              (dedup y_true) in
        Ok (if total =? 0 then inject_Z zero_division
            else Qred (Qdiv sum (inject_Z total)))
  | _ => Err (Raised "NotImplementedError" "average")
  end.

Definition tiny_precision :=
  weighted_score (fun c pairs =>
    (count (fun p => (fst p =? c) && (snd p =? c)) pairs,
     count (fun p => snd p =? c) pairs)).

Definition tiny_recall :=
  weighted_score (fun c pairs =>
    (count (fun p => (fst p =? c) && (snd p =? c)) pairs,
     count (fun p => fst p =? c) pairs)).

#[export] Instance sklearn : Sklearn := {|
  ndarray := list Z;
  fitted := list (Z * Z);
  learn := tiny_learn;
  infer := tiny_infer;
  precision_score := tiny_precision;
  recall_score := tiny_recall
|}.

(** *** Serializer: a tag byte, then 8-byte little-endian integers. *)

Definition byte_of (n : Z) : byte :=
  match Byte.of_N (Z.to_N (n mod 256)) with
  | Some b => b
  | None => x00
  end.

Fixpoint enc_le (k : nat) (n : Z) : list byte :=
  match k with
  | O => []
  | S k' => byte_of n :: enc_le k' (n / 256)
  end.

Definition enc_Z (z : Z) : list byte := enc_le 8 (z mod 2 ^ 64).

Fixpoint dec_le (k : nat) (bs : list byte) : option (Z * list byte) :=
  match k with
  | O => Some (0, bs)
  | S k' =>
      match bs with
      | [] => None
      | b :: bs' =>
          match dec_le k' bs' with
          | Some (n, rest) => Some (Z.of_N (Byte.to_N b) + 256 * n, rest)
          | None => None
          end
      end
  end.

Definition dec_Z (bs : list byte) : option (Z * list byte) :=
  match dec_le 8 bs with
  | Some (n, rest) => Some (if n <? 2 ^ 63 then n else n - 2 ^ 64, rest)
  | None => None
  end.

Definition enc_hyper (h : hyper) : list byte :=
  match h with
  | DecisionTreeClassifier d r => x00 :: enc_Z d ++ enc_Z r
  | RandomForestClassifier n d r => x01 :: enc_Z n ++ enc_Z d ++ enc_Z r
  end.

Definition dec_hyper (bs : list byte) : option (hyper * list byte) :=
  match bs with
  | [] => None
  | t :: bs =>
      match Byte.to_N t with
      | 0%N =>
          '(d, bs) ← dec_Z bs; '(r, bs) ← dec_Z bs;
          Some (DecisionTreeClassifier d r, bs)
      | 1%N =>
          '(n, bs) ← dec_Z bs; '(d, bs) ← dec_Z bs; '(r, bs) ← dec_Z bs;
          Some (RandomForestClassifier n d r, bs)
      | _ => None
      end
  end.

Definition enc_pairs (st : list (Z * Z)) : list byte :=
  enc_Z (Z.of_nat (length st)) ++ flat_map (fun p => enc_Z (fst p) ++ enc_Z (snd p)) st.

Fixpoint dec_pairs (k : nat) (bs : list byte) : option (list (Z * Z) * list byte) :=
  match k with
  | O => Some ([], bs)
  | S k' =>
      '(a, bs) ← dec_Z bs; '(b, bs) ← dec_Z bs;
      '(st, bs) ← dec_pairs k' bs;
      Some ((a, b) :: st, bs)
  end.

Definition tiny_dumps (p : @pickled float sklearn) : list byte :=
  match p with
  | PNone => [x00]
  | PStr s => x01 :: list_byte_of_string s
  | PEstimator e =>
      x02 :: enc_hyper (params e) ++
      match learned e with
      | None => [x00]
      | Some st => x01 :: enc_pairs st
      end
  end.

Definition dec_learned (bs : list byte) : option (option (list (Z * Z))) :=
  match bs with
  | [] => None
  | t :: bs =>
      match Byte.to_N t, bs with
      | 0%N, [] => Some None
      | 1%N, _ =>
          '(n, bs) ← dec_Z bs;
          '(st, bs) ← dec_pairs (Z.to_nat n) bs;
          match bs with
          | [] => Some (Some st)
          | _ => None
          end
      | _, _ => None
      end
  end.

Definition dec_estimator (bs : list byte) : option (@estimator float sklearn) :=
  match dec_hyper bs with
  | Some (h, bs) =>
      match dec_learned bs with
      | Some st => Some (Estimator_ h st)
      | None => None
      end
  | None => None
  end.

Definition tiny_loads (bs : list byte) : result (@pickled float sklearn) :=
  match bs with
  | [] => Err UnpicklingError
  | t :: bs =>
      match Byte.to_N t, bs with
      | 0%N, [] => Ok PNone
      | 1%N, _ => Ok (PStr (string_of_list_byte bs))
      | 2%N, _ =>
          match dec_estimator bs with
          | Some e => Ok (PEstimator e)
          | None => Err UnpicklingError
          end
      | _, _ => Err UnpicklingError
      end
  end.

#[export] Instance pickle : Pickle := {|
  pickle_dumps := tiny_dumps;
  pickle_loads := tiny_loads
|}.

(** A world with no objects and no files. *)
Definition empty_world : world := World ∅ ∅ ∅.

Definition arr (l : list Z) : @ndarray float sklearn := l.

(** Sample worlds: a bare [ModelBase()] (object 1); a decision tree just
    out of the factory (object 1, its classifier object 2); the same after
    training on four points; and after saving that to [model.pkl]. *)
Definition base_world : world := (call ModelBase empty_world).2.
Definition fresh_world : world := (get_model "decision_tree" empty_world).2.
Definition trained_world : world :=
  (train 1%positive (arr [1; 2; 10; 11]) (arr [0; 0; 1; 1]) fresh_world).2.
Definition saved_world : world := (save 1%positive "model.pkl" trained_world).2.

(** The trained tree of [trained_world] together with a bare [ModelBase()]
    (object 3). *)
Definition mixed_world : world := (call ModelBase trained_world).2.

Definition base_attrs : gmap string value :=
  <["model_name" := VStr "BaseModel"]> (<["model" := VNone]> ∅).
Definition tree_attrs : gmap string value :=
  <["model_name" := VStr "DecisionTree"]> (<["model" := VRef 2%positive]> base_attrs).
Definition untrained_tree : @estimator float sklearn :=
  Estimator_ (DecisionTreeClassifier 10 42) None.
Definition four_points : list (Z * Z) := [(1, 0); (2, 0); (10, 1); (11, 1)].
Definition trained_tree : @estimator float sklearn :=
  Estimator_ (DecisionTreeClassifier 10 42) (Some four_points).

(** Save an instance straight out of the factory, then load the file into
    a second one. *)
Definition save_untrained_then_load : py loc :=
  a ← get_model "decision_tree";
  save a "model.pkl";;
  b ← get_model "decision_tree";
  load b "model.pkl";;
  mret b.

(** Two instances out of the factory: a decision tree (object 1, its
    classifier object 2) and a random forest (objects 3 and 4). *)
Definition two_models_world : world :=
  run [Call_get_model "decision_tree"; Call_get_model "random_forest"] empty_world.

(** [trained_world] with a file pickle cannot read, with a path that cannot
    be written, and with a file holding a pickled string. *)
Definition corrupt_world : world := with_files <["bad.pkl" := [x07]]> trained_world.
Definition readonly_world : world :=
  World (heap trained_world) ∅ {["/readonly/model.pkl"]}.
Definition string_file_world : world :=
  with_files <["text.pkl" := pickle_dumps (PStr "hello")]> trained_world.

End Tiny.

(** * Properties *)

(** The wrapper's error values, under the names the documentation uses. *)
Definition NotInitializedError : exn := ValueError "Model not initialized".
Definition NotTrainedError : exn := ValueError "Model not trained".
Definition UnknownModelTypeError (key : string) : exn :=
  ValueError ("Unknown model type: " ++ key ++
              ". Available: ['decision_tree', 'random_forest']").

(** The documented registry: for each key the class, the name tag and the
    classifier built when no configuration is given. *)
Definition documented_variant (key : string) : option (class * string * hyper) :=
  if String.eqb key "decision_tree"
  then Some (DecisionTreeModel, "DecisionTree", DecisionTreeClassifier 10 42)
  else if String.eqb key "random_forest"
  then Some (RandomForestModel, "RandomForest", RandomForestClassifier 100 10 42)
  else None.

(** The attributes a variant's [__init__] leaves behind: base initialisation, a new
    estimator [c], and the two attributes overwritten. *)
Definition variant_attrs (attrs : gmap string value) (c : loc) (name : string)
    : gmap string value :=
  <["model_name" := VStr name]> (<["model" := VRef c]>
    (<["model_name" := VStr "BaseModel"]> (<["model" := VNone]> attrs))).

Section Properties.
Context {FL : Float} {SK : Sklearn} {PK : Pickle}.

Implicit Types (w : world) (self : loc) (X y : ndarray).

(** ** Stepping through a computation *)

Lemma bind_ok {A B} (c : py A) (k : A -> py B) w a w' :
  c w = (Ok a, w') -> (c ≫= k) w = k a w'.
Proof. intros E. unfold mbind, py_bind, bind. now rewrite E. Qed.

Lemma bind_err {A B} (c : py A) (k : A -> py B) w e w' :
  c w = (Err e, w') -> (c ≫= k) w = (Err e, w').
Proof. intros E. unfold mbind, py_bind, bind. now rewrite E. Qed.

Lemma bind_snd {A B} (c : py A) (k : A -> py B) (P : world -> Prop) w :
  P (c w).2 -> (forall a w', P w' -> P (k a w').2) -> P ((c ≫= k) w).2.
Proof.
  intros Hc Hk. unfold mbind, py_bind, bind.
  destruct (c w) as [[a|e] w']; simpl in *; auto.
Qed.

Lemma getattr_ok w self cls attrs name v :
  heap w !! self = Some (Object cls attrs) -> attrs !! name = Some v ->
  getattr self name w = (Ok v, w).
Proof. intros Hs Ha. unfold getattr. now rewrite Hs, Ha. Qed.

Lemma setattr_ok w self cls attrs name v :
  heap w !! self = Some (Object cls attrs) ->
  setattr self name v w =
    (Ok tt, with_heap <[self := Object cls (<[name := v]> attrs)]> w).
Proof. intros Hs. unfold setattr. now rewrite Hs. Qed.

Lemma getattr_frame self name w : (getattr self name w).2 = w.
Proof.
  unfold getattr. destruct (heap w !! self) as [[? attrs|]|]; try easy.
  now destruct (attrs !! name).
Qed.

Lemma alloc_fresh w : fresh (dom (heap w)) ∉ dom (heap w).
Proof. apply is_fresh. Qed.

Lemma alloc_lookup w (o : pyobj) l :
  l ∈ dom (heap w) -> <[fresh (dom (heap w)) := o]> (heap w) !! l = heap w !! l.
Proof.
  intros Hl. apply lookup_insert_ne. intros E. apply (alloc_fresh w). now rewrite E.
Qed.

(** ** Operations that only read the heap *)

Lemma estimator_predict_frame clf X w : (estimator_predict clf X w).2 = w.
Proof.
  unfold estimator_predict. destruct clf as [| |l]; try easy.
  destruct (heap w !! l) as [[|e]|]; try easy. now destruct (learned e).
Qed.

Lemma predict_frame self X w : (predict self X w).2 = w.
Proof.
  unfold predict. apply (bind_snd _ _ (fun w' => w' = w)).
  - apply getattr_frame.
  - intros m w' ->. destruct (is_None m); [easy|].
    apply (bind_snd _ _ (fun w' => w' = w)).
    + apply getattr_frame.
    + intros clf w' ->. apply estimator_predict_frame.
Qed.

Lemma lift_frame {A} (r : result A) w : (lift r w).2 = w.
Proof. reflexivity. Qed.

Lemma evaluate_frame self X y w : (evaluate self X y w).2 = w.
Proof.
  unfold evaluate. apply (bind_snd _ _ (fun w' => w' = w)).
  { apply predict_frame. }
  intros y_pred ? ->. apply (bind_snd _ _ (fun w' => w' = w)); [easy|].
  intros precision ? ->. apply (bind_snd _ _ (fun w' => w' = w)); [easy|].
  intros recall ? ->. apply (bind_snd _ _ (fun w' => w' = w)); [|easy].
  destruct (num_gt _ _); [|easy].
  apply (bind_snd _ _ (fun w' => w' = w)); easy.
Qed.

Lemma save_heap self filepath w : heap (save self filepath w).2 = heap w.
Proof.
  unfold save. apply (bind_snd _ _ (fun w' => heap w' = heap w)).
  { unfold open_wb. now destruct (decide _). }
  intros _ w1 Hw1. apply (bind_snd _ _ (fun w' => heap w' = heap w)).
  { now rewrite getattr_frame. }
  intros m w2 Hw2. unfold pickle_dump.
  apply (bind_snd _ _ (fun w' => heap w' = heap w)); [|easy].
  unfold to_pickled. destruct m as [| |l]; try easy.
  now destruct (heap w2 !! l) as [[|]|].
Qed.

Lemma state_of_heap w w' self : heap w' = heap w -> state_of w' self = state_of w self.
Proof. intros E. unfold state_of. now rewrite E. Qed.

Lemma attr_heap w w' self name : heap w' = heap w -> attr w' self name = attr w self name.
Proof. intros E. unfold attr. now rewrite E. Qed.

(** C8: on a trained instance, [predict], [evaluate] and [save] leave the
    heap as it was: the instance still refers to the same classifier
    object, that object is unchanged, [model_name] is unchanged, and the
    instance is still trained.  ([predict] and [evaluate] leave the whole
    world unchanged; [save] only touches the file system.) *)
Theorem readers_preserve_instance w self X y filepath :
  state_of w self = Some trained ->
  (predict self X w).2 = w /\
  (evaluate self X y w).2 = w /\
  let w' := (save self filepath w).2 in
  heap w' = heap w /\
  attr w' self "model" = attr w self "model" /\
  attr w' self "model_name" = attr w self "model_name" /\
  state_of w' self = Some trained.
Proof.
  intros Htr. split; [apply predict_frame|]. split; [apply evaluate_frame|].
  intros w'. pose proof (save_heap self filepath w) as Hh. fold w' in Hh.
  split; [exact Hh|]. rewrite !(attr_heap w w') by exact Hh.
  rewrite (state_of_heap w w') by exact Hh. easy.
Qed.

(** ** Construction *)

Lemma with_heap_twice (f g : gmap loc pyobj -> gmap loc pyobj) w :
  with_heap f (with_heap g w) = with_heap (fun hp => f (g hp)) w.
Proof. reflexivity. Qed.

Lemma ModelBase_init_ok w self cls attrs :
  heap w !! self = Some (Object cls attrs) ->
  ModelBase__init__ self w =
    (Ok tt, with_heap <[self := Object cls
       (<["model_name" := VStr "BaseModel"]> (<["model" := VNone]> attrs))]> w).
Proof.
  intros Hs. unfold ModelBase__init__.
  erewrite bind_ok by (apply setattr_ok; exact Hs).
  erewrite setattr_ok by (simpl; apply lookup_insert_eq).
  unfold with_heap; simpl. now rewrite insert_insert_eq.
Qed.

Lemma variant_init_ok w self cls attrs h name :
  heap w !! self = Some (Object cls attrs) ->
  exists c, (c ∉ dom (heap w)) /\ c <> self /\
    (ModelBase__init__ self;;
     clf ← new_estimator h;
     setattr self "model" clf;;
     setattr self "model_name" (VStr name)) w =
    (Ok tt, with_heap (fun hp =>
       <[self := Object cls (variant_attrs attrs c name)]>
         (<[c := Estimator (Estimator_ h None)]> hp)) w).
Proof.
  intros Hs.
  set (o1 := Object cls (<["model_name" := VStr "BaseModel"]> (<["model" := VNone]> attrs))).
  set (w1 := with_heap <[self := o1]> w).
  set (c := fresh (dom (heap w1))).
  assert (Hc1 : c ∉ dom (heap w1)) by apply alloc_fresh.
  assert (Hdom : dom (heap w1) = dom (heap w)).
  { simpl. rewrite dom_insert_L. apply subseteq_union_1_L, singleton_subseteq_l.
    eapply elem_of_dom_2. exact Hs. }
  assert (Hne : c <> self).
  { intros E. apply Hc1. rewrite E. simpl. rewrite dom_insert_L.
    apply elem_of_union_l. now apply elem_of_singleton_2. }
  exists c. split; [now rewrite <- Hdom|]. split; [exact Hne|].
  erewrite bind_ok by (apply ModelBase_init_ok; exact Hs). fold o1 w1.
  unfold new_estimator.
  erewrite bind_ok; [|erewrite bind_ok by reflexivity; reflexivity].
  fold c.
  erewrite bind_ok.
  2:{ apply setattr_ok. simpl. rewrite lookup_insert_ne by exact Hne.
      apply lookup_insert_eq. }
  erewrite setattr_ok by (simpl; apply lookup_insert_eq).
  unfold with_heap, variant_attrs; simpl. f_equal. f_equal.
  rewrite insert_insert_eq. rewrite (insert_insert_ne (heap w)) by exact Hne.
  now rewrite insert_insert_eq.
Qed.

Lemma new_variant_ok w cls h name :
  exists l c, (l ∉ dom (heap w)) /\ (c ∉ dom (heap w)) /\ c <> l /\
    new cls (fun self =>
      ModelBase__init__ self;;
      clf ← new_estimator h;
      setattr self "model" clf;;
      setattr self "model_name" (VStr name)) w =
    (Ok l, with_heap (fun hp =>
       <[l := Object cls (variant_attrs ∅ c name)]>
         (<[c := Estimator (Estimator_ h None)]> hp)) w).
Proof.
  set (l := fresh (dom (heap w))).
  set (w0 := with_heap <[l := Object cls ∅]> w).
  destruct (variant_init_ok w0 l cls ∅ h name) as (c & Hc & Hne & E).
  { simpl. apply lookup_insert_eq. }
  exists l, c. split; [apply alloc_fresh|].
  split. { intros Hin. apply Hc. simpl. rewrite dom_insert_L. set_solver. }
  split; [exact Hne|].
  unfold new. erewrite bind_ok by reflexivity. fold l w0.
  erewrite bind_ok by exact E.
  unfold with_heap, mret, py_ret, ret; simpl. f_equal. f_equal.
  rewrite (insert_insert_ne (heap w)) by exact Hne.
  now rewrite insert_insert_eq.
Qed.

(** The factory on a documented key, in full. *)
Lemma get_model_ok w key cls name h :
  documented_variant key = Some (cls, name, h) ->
  exists l c, (l ∉ dom (heap w)) /\ (c ∉ dom (heap w)) /\ c <> l /\
    get_model key w =
    (Ok l, with_heap (fun hp =>
       <[l := Object cls (variant_attrs ∅ c name)]>
         (<[c := Estimator (Estimator_ h None)]> hp)) w).
Proof.
  unfold documented_variant, get_model. simpl.
  destruct (String.eqb key "decision_tree").
  { intros [= <- <- <-]. apply new_variant_ok. }
  destruct (String.eqb key "random_forest"); [|easy].
  intros [= <- <- <-]. apply new_variant_ok.
Qed.

Lemma variant_attrs_model attrs c name :
  variant_attrs attrs c name !! "model" = Some (VRef c).
Proof. unfold variant_attrs. now simplify_map_eq. Qed.

Lemma variant_attrs_name attrs c name :
  variant_attrs attrs c name !! "model_name" = Some (VStr name).
Proof. unfold variant_attrs. now simplify_map_eq. Qed.

(** The instance a documented key yields, observed through [attr],
    [class_of] and [state_of]. *)
Lemma fresh_instance_view w l c cls name h :
  c <> l ->
  let w' := with_heap (fun hp =>
       <[l := Object cls (variant_attrs ∅ c name)]>
         (<[c := Estimator (Estimator_ h None)]> hp)) w in
  class_of w' l = Some cls /\
  attr w' l "model" = Some (VRef c) /\
  attr w' l "model_name" = Some (VStr name) /\
  heap w' !! c = Some (Estimator (Estimator_ h None)) /\
  state_of w' l = Some untrained.
Proof.
  intros Hne w'.
  assert (Hl : heap w' !! l = Some (Object cls (variant_attrs ∅ c name))).
  { simpl. apply lookup_insert_eq. }
  assert (Hc : heap w' !! c = Some (Estimator (Estimator_ h None))).
  { simpl. rewrite lookup_insert_ne by congruence. apply lookup_insert_eq. }
  unfold class_of, attr, state_of. rewrite Hl, variant_attrs_model, variant_attrs_name, Hc.
  easy.
Qed.

Lemma two_inserts_keep w (l c l0 : loc) (o1 o2 : pyobj) :
  l0 <> l -> l0 <> c ->
  heap (with_heap (fun hp => <[l := o1]> (<[c := o2]> hp)) w) !! l0 = heap w !! l0.
Proof. intros H1 H2. simpl. now rewrite !lookup_insert_ne by congruence. Qed.

Lemma state_of_agree w w' self c :
  heap w' !! self = heap w !! self ->
  attr w self "model" = Some (VRef c) ->
  heap w' !! c = heap w !! c ->
  state_of w' self = state_of w self.
Proof.
  intros Hs Ha Hc. unfold state_of, attr in *. rewrite Hs.
  destruct (heap w !! self) as [[? attrs|]|]; try easy.
  rewrite Ha. now rewrite Hc.
Qed.

(** C3: on each of the two registered keys the factory returns a new
    instance (a reference no object had before) of the matching class,
    whose [model_name] is the variant's name tag and whose state is
    untrained; objects that existed before are untouched; and a second call
    returns a different instance with a different classifier object. *)
Theorem get_model_returns_fresh_untrained w key :
  key = "decision_tree" \/ key = "random_forest" ->
  exists l w',
    get_model key w = (Ok l, w') /\
    (l ∉ dom (heap w)) /\
    class_of w' l =
      Some (if String.eqb key "decision_tree" then DecisionTreeModel
            else RandomForestModel) /\
    attr w' l "model_name" =
      Some (VStr (if String.eqb key "decision_tree" then "DecisionTree"
                  else "RandomForest")) /\
    state_of w' l = Some untrained /\
    (forall l0, l0 ∈ dom (heap w) -> heap w' !! l0 = heap w !! l0) /\
    forall key2, key2 = "decision_tree" \/ key2 = "random_forest" ->
      exists l2 w2,
        get_model key2 w' = (Ok l2, w2) /\
        l2 <> l /\
        attr w2 l2 "model" <> attr w2 l "model" /\
        state_of w2 l = Some untrained /\
        state_of w2 l2 = Some untrained.
Proof.
  intros Hkey.
  assert (Hv : exists cls name h, documented_variant key = Some (cls, name, h) /\
             cls = (if String.eqb key "decision_tree" then DecisionTreeModel
                    else RandomForestModel) /\
             name = (if String.eqb key "decision_tree" then "DecisionTree"
                     else "RandomForest")).
  { destruct Hkey as [-> | ->]; do 3 eexists; (split; [reflexivity|easy]). }
  destruct Hv as (cls & name & h & Hv & <- & <-).
  destruct (get_model_ok w key cls name h Hv) as (l & c & Hl & Hc & Hne & E).
  eexists l, _. split; [exact E|].
  destruct (fresh_instance_view w l c cls name h Hne) as (V1 & V2 & V3 & V4 & V5).
  split; [exact Hl|]. split; [exact V1|]. split; [exact V3|]. split; [exact V5|].
  split.
  { intros l0 Hl0. apply two_inserts_keep; intros ->; contradiction. }
  intros key2 Hkey2.
  assert (Hv2 : exists cls2 name2 h2, documented_variant key2 = Some (cls2, name2, h2)).
  { destruct Hkey2 as [-> | ->]; do 3 eexists; reflexivity. }
  destruct Hv2 as (cls2 & name2 & h2 & Hv2).
  set (w' := with_heap _ w) in *.
  destruct (get_model_ok w' key2 cls2 name2 h2 Hv2) as (l2 & c2 & Hl2 & Hc2 & Hne2 & E2).
  assert (Hlw : l ∈ dom (heap w')).
  { apply elem_of_dom. subst w'. simpl. rewrite lookup_insert_eq. eauto. }
  assert (Hcw : c ∈ dom (heap w')) by (apply elem_of_dom; rewrite V4; eauto).
  assert (l2 <> l) by (intros ->; contradiction).
  assert (c2 <> c) by (intros ->; contradiction).
  assert (l2 <> c) by (intros ->; contradiction).
  assert (c2 <> l) by (intros ->; contradiction).
  eexists l2, _. split; [exact E2|]. split; [assumption|].
  destruct (fresh_instance_view w' l2 c2 cls2 name2 h2 Hne2) as (U1 & U2 & U3 & U4 & U5).
  set (w2 := with_heap _ w') in *.
  assert (Hkeep : forall l0, l0 ∈ dom (heap w') -> heap w2 !! l0 = heap w' !! l0).
  { intros l0 Hl0. apply two_inserts_keep; intros ->; contradiction. }
  assert (A : attr w2 l "model" = Some (VRef c)).
  { unfold attr in *. now rewrite (Hkeep l Hlw). }
  split. { rewrite U2, A. congruence. }
  split; [|exact U5].
  rewrite <- V5. apply state_of_agree with (c := c); auto.
Qed.

(** C9: a variant constructor builds its classifier from exactly the
    options of its own signature, an omitted option taking the documented
    default: [DecisionTreeClassifier] gets [max_depth] (10) and
    [random_state] (42), [RandomForestClassifier] gets [n_estimators] (100),
    [max_depth] (10) and [random_state] (42).  Nothing is fitted. *)
Theorem constructors_pass_configuration w :
  (forall max_depth random_state, exists l c w',
     new DecisionTreeModel
       (fun self => DecisionTreeModel__init__ self max_depth random_state) w
       = (Ok l, w') /\
     attr w' l "model" = Some (VRef c) /\
     attr w' l "model_name" = Some (VStr "DecisionTree") /\
     heap w' !! c =
       Some (Estimator (Estimator_
         (DecisionTreeClassifier (default 10 max_depth) (default 42 random_state))
         None))) /\
  (forall n_estimators max_depth random_state, exists l c w',
     new RandomForestModel
       (fun self => RandomForestModel__init__ self n_estimators max_depth random_state) w
       = (Ok l, w') /\
     attr w' l "model" = Some (VRef c) /\
     attr w' l "model_name" = Some (VStr "RandomForest") /\
     heap w' !! c =
       Some (Estimator (Estimator_
         (RandomForestClassifier (default 100 n_estimators) (default 10 max_depth)
                                 (default 42 random_state))
         None))) /\
  (exists l c w',
     call DecisionTreeModel w = (Ok l, w') /\
     attr w' l "model" = Some (VRef c) /\
     heap w' !! c =
       Some (Estimator (Estimator_ (DecisionTreeClassifier 10 42) None))) /\
  (exists l c w',
     call RandomForestModel w = (Ok l, w') /\
     attr w' l "model" = Some (VRef c) /\
     heap w' !! c =
       Some (Estimator (Estimator_ (RandomForestClassifier 100 10 42) None))).
Proof.
  split; [|split; [|split]].
  - intros md rs.
    destruct (new_variant_ok w DecisionTreeModel
                (DecisionTreeClassifier (default 10 md) (default 42 rs))
                "DecisionTree") as (l & c & _ & _ & Hne & E).
    destruct (fresh_instance_view w l c DecisionTreeModel "DecisionTree"
                (DecisionTreeClassifier (default 10 md) (default 42 rs)) Hne)
      as (_ & V2 & V3 & V4 & _).
    eexists l, c, _. split; [exact E|]. easy.
  - intros ne md rs.
    destruct (new_variant_ok w RandomForestModel
                (RandomForestClassifier (default 100 ne) (default 10 md) (default 42 rs))
                "RandomForest") as (l & c & _ & _ & Hne & E).
    destruct (fresh_instance_view w l c RandomForestModel "RandomForest"
                (RandomForestClassifier (default 100 ne) (default 10 md) (default 42 rs))
                Hne) as (_ & V2 & V3 & V4 & _).
    eexists l, c, _. split; [exact E|]. easy.
  - destruct (new_variant_ok w DecisionTreeModel (DecisionTreeClassifier 10 42)
                "DecisionTree") as (l & c & _ & _ & Hne & E).
    destruct (fresh_instance_view w l c DecisionTreeModel "DecisionTree"
                (DecisionTreeClassifier 10 42) Hne) as (_ & V2 & _ & V4 & _).
    eexists l, c, _. split; [exact E|]. easy.
  - destruct (new_variant_ok w RandomForestModel (RandomForestClassifier 100 10 42)
                "RandomForest") as (l & c & _ & _ & Hne & E).
    destruct (fresh_instance_view w l c RandomForestModel "RandomForest"
                (RandomForestClassifier 100 10 42) Hne) as (_ & V2 & _ & V4 & _).
    eexists l, c, _. split; [exact E|]. easy.
Qed.

(** C4: on every key other than the two registered ones the factory
    raises a [ValueError] whose message names the key and lists exactly
    ['decision_tree', 'random_forest'], the keys of the registry in order;
    nothing is constructed. *)
Theorem get_model_unknown_key w key :
  key <> "decision_tree" -> key <> "random_forest" ->
  get_model key w = (Err (UnknownModelTypeError key), w) /\
  is_ValueError (UnknownModelTypeError key) = true /\
  UnknownModelTypeError key =
    ValueError ("Unknown model type: " ++ key ++ ". Available: " ++
                repr_list ["decision_tree"; "random_forest"]) /\
  keys models = ["decision_tree"; "random_forest"].
Proof.
  intros H1 H2. unfold get_model. simpl.
  destruct (String.eqb_spec key "decision_tree"); [contradiction|].
  destruct (String.eqb_spec key "random_forest"); [contradiction|].
  easy.
Qed.

(** C6: [train] on an instance whose [model] attribute is [None] raises
    the not-initialized error and changes nothing.  Otherwise, when the
    classifier's [fit] succeeds, [train] returns no value, the learned state
    is stored in the same classifier object (the [model] attribute still
    refers to it), and the instance is trained. *)
Theorem train_spec w self cls attrs X y :
  heap w !! self = Some (Object cls attrs) ->
  (attrs !! "model" = Some VNone ->
     train self X y w = (Err NotInitializedError, w)) /\
  (forall c e st,
     attrs !! "model" = Some (VRef c) ->
     heap w !! c = Some (Estimator e) ->
     learn (params e) X y = Ok st ->
     let w' := with_heap <[c := Estimator (Estimator_ (params e) (Some st))]> w in
     train self X y w = (Ok tt, w') /\
     attr w' self "model" = Some (VRef c) /\
     state_of w' self = Some trained).
Proof.
  intros Hs. split.
  - intros Hm. unfold train.
    erewrite bind_ok by (eapply getattr_ok; eassumption). reflexivity.
  - intros c e st Hm Hc Hl w'.
    assert (Hne : c <> self) by (intros ->; congruence).
    assert (Hs' : heap w' !! self = Some (Object cls attrs)).
    { simpl. now rewrite lookup_insert_ne. }
    split; [|split].
    + unfold train.
      erewrite bind_ok by (eapply getattr_ok; eassumption). simpl.
      erewrite bind_ok by (eapply getattr_ok; eassumption).
      unfold fit. now rewrite Hc, Hl.
    + unfold attr. now rewrite Hs'.
    + unfold state_of. rewrite Hs', Hm. simpl. now rewrite lookup_insert_eq.
Qed.

(** ** [predict] and [evaluate] by the state of the classifier *)

Lemma predict_no_classifier w self cls attrs X :
  heap w !! self = Some (Object cls attrs) ->
  attrs !! "model" = Some VNone ->
  predict self X w = (Err NotTrainedError, w).
Proof.
  intros Hs Hm. unfold predict.
  erewrite bind_ok by (eapply getattr_ok; eassumption). reflexivity.
Qed.

Lemma predict_classifier w self cls attrs c e X :
  heap w !! self = Some (Object cls attrs) ->
  attrs !! "model" = Some (VRef c) ->
  heap w !! c = Some (Estimator e) ->
  predict self X w =
    (match learned e with
     | Some st => infer (params e) st X
     | None => Err (NotFittedError (not_fitted_msg (params e)))
     end, w).
Proof.
  intros Hs Hm Hc. unfold predict.
  erewrite bind_ok by (eapply getattr_ok; eassumption). simpl.
  erewrite bind_ok by (eapply getattr_ok; eassumption).
  unfold estimator_predict. rewrite Hc. now destruct (learned e).
Qed.

Lemma evaluate_predict_err w self X y e :
  predict self X w = (Err e, w) -> evaluate self X y w = (Err e, w).
Proof. intros E. unfold evaluate. now erewrite bind_err by exact E. Qed.

(** C1 (as the code has it): on an instance just returned by the factory,
    [predict] and [evaluate] do fail, not with the not-trained error but
    with the classifier's own [NotFittedError] (a [ValueError] subclass of
    scikit-learn): the classifier is present, so the wrapper's guard does
    not fire.  On every instance without a classifier ([model] is [None])
    [predict] and [evaluate] fail with the not-trained error. *)
Theorem predict_before_training w key X y :
  key = "decision_tree" \/ key = "random_forest" ->
  (exists l w' h,
     get_model key w = (Ok l, w') /\
     predict l X w' = (Err (NotFittedError (not_fitted_msg h)), w') /\
     evaluate l X y w' = (Err (NotFittedError (not_fitted_msg h)), w') /\
     is_ValueError (NotFittedError (not_fitted_msg h)) = true /\
     (predict l X w').1 <> Err NotTrainedError /\
     (evaluate l X y w').1 <> Err NotTrainedError) /\
  (forall self cls attrs,
     heap w !! self = Some (Object cls attrs) ->
     attrs !! "model" = Some VNone ->
     predict self X w = (Err NotTrainedError, w) /\
     evaluate self X y w = (Err NotTrainedError, w)).
Proof.
  intros Hkey. split.
  - assert (Hv : exists cls name h, documented_variant key = Some (cls, name, h)).
    { destruct Hkey as [-> | ->]; do 3 eexists; reflexivity. }
    destruct Hv as (cls & name & h & Hv).
    destruct (get_model_ok w key cls name h Hv) as (l & c & _ & _ & Hne & E).
    set (w' := with_heap _ w) in E.
    assert (P : predict l X w' = (Err (NotFittedError (not_fitted_msg h)), w')).
    { apply (predict_classifier w' l cls (variant_attrs ∅ c name) c (Estimator_ h None)).
      - simpl. apply lookup_insert_eq.
      - apply variant_attrs_model.
      - simpl. rewrite lookup_insert_ne by congruence. apply lookup_insert_eq. }
    assert (Q : evaluate l X y w' = (Err (NotFittedError (not_fitted_msg h)), w'))
      by now apply evaluate_predict_err.
    exists l, w', h. split; [exact E|]. split; [exact P|]. split; [exact Q|].
    split; [reflexivity|]. rewrite P, Q. split; discriminate.
  - intros self cls attrs Hs Hm.
    assert (P := predict_no_classifier w self cls attrs X Hs Hm).
    split; [exact P|now apply evaluate_predict_err].
Qed.

(** C2: when the prediction and the two metric calls return, [evaluate]
    returns the three-entry mapping precision, recall, f1_score (in this
    order), leaves the world as it was, and: precision and recall are what
    [precision_score] and [recall_score] give for [average='weighted'],
    [zero_division=0]; f1_score is [2 * (P * R) / (P + R)] of these two
    values when [P + R > 0], and the integer 0 otherwise, no division being
    performed in that case. *)
Theorem evaluate_spec w self X y y_pred P R :
  predict self X w = (Ok y_pred, w) ->
  precision_score y y_pred weighted 0 = Ok P ->
  recall_score y y_pred weighted 0 = Ok R ->
  (forall q,
     num_gt (num_add P R) (num_of_int 0) = true ->
     num_div (num_mul (num_of_int 2) (num_mul P R)) (num_add P R) = Ok q ->
     evaluate self X y w =
       (Ok [("precision", MFloat P); ("recall", MFloat R); ("f1_score", MFloat q)], w)) /\
  (num_gt (num_add P R) (num_of_int 0) = false ->
     evaluate self X y w =
       (Ok [("precision", MFloat P); ("recall", MFloat R); ("f1_score", MInt 0)], w)).
Proof.
  intros Hp HP HR. split.
  - intros q Hgt Hdiv. unfold evaluate.
    erewrite bind_ok by exact Hp. rewrite HP, HR.
    erewrite bind_ok by reflexivity. erewrite bind_ok by reflexivity.
    rewrite Hgt, Hdiv.
    erewrite bind_ok; [reflexivity|]. now erewrite bind_ok by reflexivity.
  - intros Hgt. unfold evaluate.
    erewrite bind_ok by exact Hp. rewrite HP, HR.
    erewrite bind_ok by reflexivity. erewrite bind_ok by reflexivity.
    rewrite Hgt. now erewrite bind_ok by reflexivity.
Qed.

(** ** [save] and [load] *)

Lemma save_ok w self cls attrs v p filepath :
  heap w !! self = Some (Object cls attrs) ->
  attrs !! "model" = Some v ->
  (to_pickled v w).1 = Ok p ->
  filepath ∉ unwritable w ->
  save self filepath w = (Ok tt, with_files <[filepath := pickle_dumps p]> w).
Proof.
  intros Hs Hm Hp Hw. unfold save.
  erewrite bind_ok.
  2:{ unfold open_wb. rewrite decide_False by exact Hw. reflexivity. }
  erewrite bind_ok by (eapply getattr_ok; [exact Hs|exact Hm]).
  unfold pickle_dump. erewrite bind_ok.
  2:{ instantiate (1 := with_files <[filepath := []]> w). instantiate (1 := p).
      revert Hp. unfold to_pickled. destruct v as [| |l]; simpl; try congruence.
      destruct (heap w !! l) as [[|]|]; simpl; congruence. }
  unfold write, with_files; simpl. now rewrite insert_insert_eq.
Qed.

Lemma load_estimator_ok w self cls attrs filepath bs e :
  heap w !! self = Some (Object cls attrs) ->
  files w !! filepath = Some bs ->
  pickle_loads bs = Ok (PEstimator e) ->
  exists c, (c ∉ dom (heap w)) /\
    load self filepath w =
      (Ok tt, with_heap (fun hp =>
         <[self := Object cls (<["model" := VRef c]> attrs)]>
           (<[c := Estimator e]> hp)) w).
Proof.
  intros Hs Hf Hl. set (c := fresh (dom (heap w))).
  assert (Hc : c ∉ dom (heap w)) by apply alloc_fresh.
  assert (Hne : c <> self).
  { intros E. apply Hc. rewrite E. apply elem_of_dom. eauto. }
  exists c. split; [exact Hc|]. unfold load.
  erewrite bind_ok by (unfold open_rb; rewrite Hf; reflexivity).
  erewrite bind_ok.
  2:{ unfold pickle_load. erewrite bind_ok by (unfold lift; rewrite Hl; reflexivity).
      cbv beta iota. erewrite bind_ok by reflexivity. reflexivity. }
  fold c. erewrite setattr_ok.
  2:{ simpl. rewrite lookup_insert_ne by exact Hne. exact Hs. }
  reflexivity.
Qed.

Lemma load_none_ok w self cls attrs filepath bs :
  heap w !! self = Some (Object cls attrs) ->
  files w !! filepath = Some bs ->
  pickle_loads bs = Ok PNone ->
  load self filepath w =
    (Ok tt, with_heap <[self := Object cls (<["model" := VNone]> attrs)]> w).
Proof.
  intros Hs Hf Hl. unfold load.
  erewrite bind_ok by (unfold open_rb; rewrite Hf; reflexivity).
  erewrite bind_ok.
  2:{ unfold pickle_load. erewrite bind_ok by (unfold lift; rewrite Hl; reflexivity).
      reflexivity. }
  now erewrite setattr_ok by exact Hs.
Qed.

(** The instance after loading an estimator, observed. *)
Lemma loaded_instance_view w self cls attrs c e :
  c <> self ->
  let w' := with_heap (fun hp =>
       <[self := Object cls (<["model" := VRef c]> attrs)]>
         (<[c := Estimator e]> hp)) w in
  heap w' !! self = Some (Object cls (<["model" := VRef c]> attrs)) /\
  heap w' !! c = Some (Estimator e) /\
  attr w' self "model" = Some (VRef c) /\
  attr w' self "model_name" = attrs !! "model_name" /\
  state_of w' self =
    Some (match learned e with Some _ => trained | None => untrained end).
Proof.
  intros Hne w'.
  assert (Hs : heap w' !! self = Some (Object cls (<["model" := VRef c]> attrs))).
  { simpl. apply lookup_insert_eq. }
  assert (Hc : heap w' !! c = Some (Estimator e)).
  { simpl. rewrite lookup_insert_ne by congruence. apply lookup_insert_eq. }
  unfold attr, state_of. rewrite Hs, Hc.
  rewrite lookup_insert_eq. rewrite lookup_insert_ne by discriminate.
  now rewrite Hc.
Qed.

(** C7 (as the code has it): whatever the instance held before, [load] on
    a readable file that deserializes to a classifier makes the [model]
    attribute refer to a new object holding exactly the deserialized
    classifier; nothing about that classifier is checked, [model_name] is
    kept, no other object changes.  The state afterwards is the state of
    what was loaded: trained when the deserialized classifier had been
    fitted, untrained when it had not. *)
Theorem load_replaces_classifier w self cls attrs filepath bs e :
  heap w !! self = Some (Object cls attrs) ->
  files w !! filepath = Some bs ->
  pickle_loads bs = Ok (PEstimator e) ->
  exists c w',
    load self filepath w = (Ok tt, w') /\
    (c ∉ dom (heap w)) /\
    attr w' self "model" = Some (VRef c) /\
    heap w' !! c = Some (Estimator e) /\
    attr w' self "model_name" = attrs !! "model_name" /\
    (forall l0, l0 <> self -> l0 <> c -> heap w' !! l0 = heap w !! l0) /\
    files w' = files w /\
    state_of w' self =
      Some (match learned e with Some _ => trained | None => untrained end) /\
    (state_of w' self = Some trained <-> is_Some (learned e)).
Proof.
  intros Hs Hf Hl.
  destruct (load_estimator_ok w self cls attrs filepath bs e Hs Hf Hl) as (c & Hc & E).
  assert (Hne : c <> self).
  { intros Q. apply Hc. rewrite Q. apply elem_of_dom. eauto. }
  destruct (loaded_instance_view w self cls attrs c e Hne) as (_ & V2 & V3 & V4 & V5).
  eexists c, _. split; [exact E|]. split; [exact Hc|].
  split; [exact V3|]. split; [exact V2|]. split; [exact V4|].
  split. { intros l0 H1 H2. now apply two_inserts_keep. }
  split; [reflexivity|]. split; [exact V5|].
  rewrite V5. destruct (learned e); split; intros Q; try easy; try eauto.
  now destruct Q.
Qed.

(** C5: take a trained instance [a], a writable path, and a classifier
    that pickle reads back as written.  Saving [a], asking the factory for a
    new instance [b] (of either variant, so in particular of [a]'s) and
    loading the file into [b] all succeed; afterwards [b] is trained and, on
    every input, [predict] on [b] returns what [predict] on [a] returned
    before the save, and what it still returns. *)
Theorem save_load_roundtrip w a cls attrs c e st filepath key :
  heap w !! a = Some (Object cls attrs) ->
  attrs !! "model" = Some (VRef c) ->
  heap w !! c = Some (Estimator e) ->
  learned e = Some st ->
  filepath ∉ unwritable w ->
  pickle_loads (pickle_dumps (PEstimator e)) = Ok (PEstimator e) ->
  key = "decision_tree" \/ key = "random_forest" ->
  exists b w',
    (save a filepath;; b ← get_model key; load b filepath;; mret b) w = (Ok b, w') /\
    b <> a /\
    files w' !! filepath = Some (pickle_dumps (PEstimator e)) /\
    state_of w' b = Some trained /\
    forall X,
      (predict a X w).1 = infer (params e) st X /\
      (predict b X w').1 = (predict a X w).1 /\
      (predict a X w').1 = (predict a X w).1.
Proof.
  intros Ha Hm Hc Hst Hw Hrt Hkey.
  assert (Hv : exists cls' name h, documented_variant key = Some (cls', name, h)).
  { destruct Hkey as [-> | ->]; do 3 eexists; reflexivity. }
  destruct Hv as (cls' & name & h & Hv).
  set (w1 := with_files <[filepath := pickle_dumps (PEstimator e)]> w).
  assert (S1 : save a filepath w = (Ok tt, w1)).
  { apply (save_ok w a cls attrs (VRef c)); auto. simpl. now rewrite Hc. }
  destruct (get_model_ok w1 key cls' name h Hv) as (b & cb & Hb & Hcb & Hne & G).
  set (w2 := with_heap _ w1) in G.
  assert (Hb2 : heap w2 !! b = Some (Object cls' (variant_attrs ∅ cb name))).
  { simpl. apply lookup_insert_eq. }
  destruct (load_estimator_ok w2 b cls' (variant_attrs ∅ cb name) filepath
              (pickle_dumps (PEstimator e)) e Hb2) as (c3 & Hc3 & L).
  { simpl. apply lookup_insert_eq. }
  { exact Hrt. }
  set (w3 := with_heap _ w2) in L.
  assert (Hne3 : c3 <> b).
  { intros Q. apply Hc3. rewrite Q. apply elem_of_dom. eauto. }
  destruct (loaded_instance_view w2 b cls' (variant_attrs ∅ cb name) c3 e Hne3)
    as (V1 & V2 & _ & _ & V5). fold w3 in V1, V2, V5.
  assert (Hold : forall l0, l0 ∈ dom (heap w) -> heap w3 !! l0 = heap w !! l0).
  { intros l0 Hl0.
    assert (Hl2 : heap w2 !! l0 = heap w !! l0).
    { apply (two_inserts_keep w1); intros ->; contradiction. }
    unfold w3. rewrite two_inserts_keep; [exact Hl2| |].
    - intros ->. contradiction.
    - intros ->. apply Hc3. apply elem_of_dom. rewrite Hl2.
      now apply elem_of_dom. }
  assert (Ha3 : heap w3 !! a = Some (Object cls attrs)).
  { rewrite Hold; [exact Ha|]. apply elem_of_dom; eauto. }
  assert (Hc3' : heap w3 !! c = Some (Estimator e)).
  { rewrite Hold; [exact Hc|]. apply elem_of_dom; eauto. }
  exists b, w3. split.
  { erewrite bind_ok by exact S1. erewrite bind_ok by exact G.
    erewrite bind_ok by exact L. reflexivity. }
  split. { intros ->. apply Hb. apply elem_of_dom. eauto. }
  split. { simpl. apply lookup_insert_eq. }
  split. { rewrite V5, Hst. reflexivity. }
  intros X.
  rewrite (predict_classifier w a cls attrs c e X Ha Hm Hc).
  rewrite (predict_classifier w3 a cls attrs c e X Ha3 Hm Hc3').
  rewrite (predict_classifier w3 b cls' _ c3 e X V1 (lookup_insert_eq _ _ _) V2).
  rewrite Hst. easy.
Qed.

(** C10: on an instance whose [model] attribute is [None], [save] to a
    writable path succeeds and the file holds the serialization of [None];
    when pickle reads that back as [None], [load] of the file into any
    instance succeeds and sets its [model] attribute to [None], after which
    [predict] raises the wrapper's not-trained error. *)
Theorem save_load_without_classifier w m cls attrs filepath :
  heap w !! m = Some (Object cls attrs) ->
  attrs !! "model" = Some VNone ->
  filepath ∉ unwritable w ->
  pickle_loads (pickle_dumps PNone) = Ok PNone ->
  exists w1,
    save m filepath w = (Ok tt, w1) /\
    files w1 !! filepath = Some (pickle_dumps PNone) /\
    heap w1 = heap w /\
    forall b cls' attrs',
      heap w1 !! b = Some (Object cls' attrs') ->
      exists w2,
        load b filepath w1 = (Ok tt, w2) /\
        attr w2 b "model" = Some VNone /\
        state_of w2 b = Some uninitialized /\
        forall X, predict b X w2 = (Err NotTrainedError, w2).
Proof.
  intros Hm Ha Hw Hrt.
  eexists. split.
  { apply (save_ok w m cls attrs VNone PNone); auto. }
  split. { simpl. apply lookup_insert_eq. }
  split; [reflexivity|].
  intros b cls' attrs' Hb.
  eexists. split.
  { eapply load_none_ok; [exact Hb| |exact Hrt]. simpl. apply lookup_insert_eq. }
  set (w2 := with_heap _ _).
  assert (Hb2 : heap w2 !! b = Some (Object cls' (<["model" := VNone]> attrs'))).
  { simpl. apply lookup_insert_eq. }
  split. { unfold attr. rewrite Hb2. apply lookup_insert_eq. }
  split. { unfold state_of. rewrite Hb2. now rewrite lookup_insert_eq. }
  intros X. eapply predict_no_classifier; [exact Hb2|]. apply lookup_insert_eq.
Qed.

(** ** Ownership is an invariant of the interface *)

Lemma new_base_ok w :
  let l := fresh (dom (heap w)) in
  new ModelBase ModelBase__init__ w =
    (Ok l, with_heap <[l := Object ModelBase
       (<["model_name" := VStr "BaseModel"]> (<["model" := VNone]> ∅))]> w).
Proof.
  intros l. unfold new. erewrite bind_ok by reflexivity. fold l.
  erewrite bind_ok.
  2:{ apply ModelBase_init_ok. simpl. apply lookup_insert_eq. }
  unfold with_heap, mret, py_ret, ret; simpl. now rewrite insert_insert_eq.
Qed.

Lemma train_world self X y w :
  (train self X y w).2 = w \/
  exists c e st,
    owns w self c /\ heap w !! c = Some (Estimator e) /\
    learn (params e) X y = Ok st /\
    train self X y w =
      (Ok tt, with_heap <[c := Estimator (Estimator_ (params e) (Some st))]> w).
Proof.
  unfold train, mbind, py_bind, bind, getattr, owns, attr.
  destruct (heap w !! self) as [[cls attrs|]|] eqn:Hs; simpl; auto.
  destruct (attrs !! "model") as [v|] eqn:Hm; simpl; auto.
  destruct v as [| |c]; simpl; auto; rewrite Hs, Hm; simpl; auto.
  destruct (heap w !! c) as [[|e]|] eqn:Hc; simpl; auto.
  destruct (learn (params e) X y) as [st|] eqn:Hl; simpl; auto.
  right. exists c, e, st. easy.
Qed.

Lemma load_world self filepath w :
  (load self filepath w).2 = w \/
  (exists c e, (c ∉ dom (heap w)) /\
     (load self filepath w).2 = with_heap <[c := Estimator e]> w) \/
  (exists cls attrs v,
     heap w !! self = Some (Object cls attrs) /\ (forall c, v <> VRef c) /\
     (load self filepath w).2 =
       with_heap <[self := Object cls (<["model" := v]> attrs)]> w) \/
  (exists cls attrs c e,
     heap w !! self = Some (Object cls attrs) /\ (c ∉ dom (heap w)) /\
     (load self filepath w).2 =
       with_heap (fun hp => <[self := Object cls (<["model" := VRef c]> attrs)]>
                              (<[c := Estimator e]> hp)) w).
Proof.
  unfold load, open_rb, pickle_load, lift, alloc, setattr, mbind, py_bind, bind,
    mret, py_ret, ret.
  destruct (files w !! filepath) as [bs|]; simpl; auto.
  destruct (pickle_loads bs) as [[|s|e]|]; simpl; auto.
  - destruct (heap w !! self) as [[cls attrs|]|] eqn:Hs; simpl; auto.
    right; right; left. exists cls, attrs, VNone. easy.
  - destruct (heap w !! self) as [[cls attrs|]|] eqn:Hs; simpl; auto.
    right; right; left. exists cls, attrs, (VStr s). easy.
  - set (c := fresh (dom (heap w))).
    assert (Hc : c ∉ dom (heap w)) by apply alloc_fresh.
    destruct (decide (c = self)) as [->|Hne].
    + rewrite lookup_insert_eq. simpl. right; left. exists self, e. easy.
    + rewrite lookup_insert_ne by exact Hne.
      destruct (heap w !! self) as [[cls attrs|]|] eqn:Hs; simpl.
      * right; right; right. exists cls, attrs, c, e. easy.
      * right; left. exists c, e. easy.
      * right; left. exists c, e. easy.
Qed.

(** A cell that holds no classifier reference is written: a new estimator,
    a refitted estimator, or an instance whose [model] is not a reference. *)
Lemma wf_write_plain w l (o : pyobj) :
  well_formed w ->
  (forall c, attr (with_heap <[l := o]> w) l "model" <> Some (VRef c)) ->
  (forall e, heap w !! l = Some (Estimator e) -> exists e', o = Estimator e') ->
  well_formed (with_heap <[l := o]> w).
Proof.
  intros Hwf Hplain Hest. pose proof Hwf as [Hd Hs].
  assert (Hkeep : forall x c, owns (with_heap <[l := o]> w) x c -> x <> l /\ owns w x c).
  { intros x c Ho. destruct (decide (x = l)) as [->|Hne].
    - exfalso. exact (Hplain c Ho).
    - split; [exact Hne|]. unfold owns, attr in *. simpl in Ho.
      now rewrite lookup_insert_ne in Ho by congruence. }
  split.
  - intros x c Ho. destruct (Hkeep x c Ho) as [Hne Ho'].
    destruct (Hd x c Ho') as [e He]. simpl.
    destruct (decide (c = l)) as [->|Hcl].
    + rewrite lookup_insert_eq. destruct (Hest e He) as [e' ->]. eauto.
    + rewrite lookup_insert_ne by congruence. eauto.
  - intros a b c Ha Hb. destruct (Hkeep a c Ha) as [_ Ha'].
    destruct (Hkeep b c Hb) as [_ Hb']. exact (Hs a b c Ha' Hb').
Qed.

(** An instance [l] (new, or already an instance) takes a new classifier. *)
Lemma wf_attach w l c cls attrs e :
  well_formed w ->
  c ∉ dom (heap w) -> c <> l ->
  (forall e0, heap w !! l <> Some (Estimator e0)) ->
  attrs !! "model" = Some (VRef c) ->
  well_formed (with_heap (fun hp =>
     <[l := Object cls attrs]> (<[c := Estimator e]> hp)) w).
Proof.
  intros Hwf Hc Hne Hl Hm. pose proof Hwf as [Hd Hs].
  set (w' := with_heap _ w).
  assert (Hown : forall x d, owns w' x d ->
            (x = l /\ d = c) \/ (x <> l /\ owns w x d /\ d <> c /\ d <> l)).
  { intros x d Ho. destruct (decide (x = l)) as [->|Hxl].
    - left. split; [reflexivity|]. unfold owns, attr in Ho. subst w'. simpl in Ho.
      rewrite lookup_insert_eq in Ho. congruence.
    - right. split; [exact Hxl|].
      assert (Ho' : owns w x d).
      { unfold owns, attr in *. subst w'. simpl in Ho.
        rewrite lookup_insert_ne in Ho by congruence.
        destruct (decide (x = c)) as [->|Hxc].
        - now rewrite lookup_insert_eq in Ho.
        - now rewrite lookup_insert_ne in Ho by congruence. }
      split; [exact Ho'|]. destruct (Hd x d Ho') as [e0 He0]. split.
      + intros ->. apply Hc. apply elem_of_dom. eauto.
      + intros ->. exact (Hl e0 He0). }
  split.
  - intros x d Ho. destruct (Hown x d Ho) as [[-> ->]|(Hxl & Ho' & Hdc & Hdl)].
    + exists e. subst w'. simpl. rewrite lookup_insert_ne by congruence.
      apply lookup_insert_eq.
    + destruct (Hd x d Ho') as [e0 He0]. exists e0. subst w'. simpl.
      now rewrite !lookup_insert_ne by congruence.
  - intros a b d Ha Hb.
    destruct (Hown a d Ha) as [[Ea Ed]|(Hal & Ha' & Hdc & _)];
      destruct (Hown b d Hb) as [[Eb Ed']|(Hbl & Hb' & Hdc' & _)];
      try congruence.
    exact (Hs a b d Ha' Hb').
Qed.

Lemma fresh_not_estimator w l :
  l ∉ dom (heap w) -> forall e0, heap w !! l <> Some (Estimator e0).
Proof. intros Hl e0 He. apply Hl. apply elem_of_dom. eauto. Qed.

Lemma wf_new_variant w cls h name :
  well_formed w ->
  well_formed (new cls (fun self =>
      ModelBase__init__ self;;
      clf ← new_estimator h;
      setattr self "model" clf;;
      setattr self "model_name" (VStr name)) w).2.
Proof.
  intros Hwf. destruct (new_variant_ok w cls h name) as (l & c & Hl & Hc & Hne & E).
  rewrite E. simpl.
  apply wf_attach; auto using fresh_not_estimator, variant_attrs_model.
Qed.

Lemma exec_well_formed c w : well_formed w -> well_formed (exec c w).
Proof.
  intros Hwf. destruct c as [|md rs|ne md rs|key|self X y|self X|self X y|self fp|self fp];
    simpl.
  - rewrite new_base_ok. simpl. apply wf_write_plain; [exact Hwf| |].
    + intros c. unfold attr. simpl. rewrite lookup_insert_eq. now simplify_map_eq.
    + intros e He. exfalso. eapply fresh_not_estimator; [apply alloc_fresh|exact He].
  - now apply wf_new_variant.
  - now apply wf_new_variant.
  - unfold get_model. destruct (dict_get models key) as [cls|] eqn:Hk; [|exact Hwf].
    revert Hk. simpl. destruct (String.eqb key "decision_tree").
    { intros [= <-]. now apply wf_new_variant. }
    destruct (String.eqb key "random_forest"); [|easy].
    intros [= <-]. now apply wf_new_variant.
  - destruct (train_world self X y w) as [->|(c & e & st & _ & Hc & _ & ->)];
      [exact Hwf|]. simpl. apply wf_write_plain; [exact Hwf| |].
    + intros c0. unfold attr. simpl. now rewrite lookup_insert_eq.
    + eauto.
  - now rewrite predict_frame.
  - now rewrite evaluate_frame.
  - destruct Hwf as [Hd Hs]. pose proof (save_heap self fp w) as Hh.
    unfold well_formed, owns, attr in *. rewrite Hh. auto.
  - destruct (load_world self fp w)
      as [->|[(c & e & Hc & ->)|[(cls & attrs & v & Hs & Hv & ->)
                                |(cls & attrs & c & e & Hs & Hc & ->)]]].
    + exact Hwf.
    + apply wf_write_plain; [exact Hwf| |].
      * intros c0. unfold attr. simpl. now rewrite lookup_insert_eq.
      * eauto.
    + apply wf_write_plain; [exact Hwf| |].
      * intros c0. unfold attr. simpl. rewrite !lookup_insert_eq.
        intros [= Q]. exact (Hv c0 Q).
      * intros e He. congruence.
    + apply wf_attach; auto.
      * intros ->. apply Hc. apply elem_of_dom. eauto.
      * intros e0 He0. congruence.
      * apply lookup_insert_eq.
Qed.

Lemma run_well_formed cs w : well_formed w -> well_formed (run cs w).
Proof.
  revert w. induction cs as [|c cs IH]; intros w Hwf; [exact Hwf|].
  simpl. apply IH. now apply exec_well_formed.
Qed.

Lemma empty_heap_well_formed fs ro : well_formed (World ∅ fs ro).
Proof.
  split.
  - intros self c Ho. unfold owns, attr in Ho. simpl in Ho.
    now rewrite lookup_empty in Ho.
  - intros a b c Ho. unfold owns, attr in Ho. simpl in Ho.
    now rewrite lookup_empty in Ho.
Qed.


(** ** What a call can and cannot see or change *)

Lemma getattr_attr self name w :
  getattr self name w =
    (match attr w self name with
     | Some v => Ok v
     | None => Err (AttributeError name)
     end, w).
Proof.
  unfold getattr, attr. destruct (heap w !! self) as [[cls attrs|]|]; try easy.
  now destruct (attrs !! name).
Qed.

Lemma state_of_attr w self :
  state_of w self =
    match attr w self "model" with
    | Some VNone => Some uninitialized
    | Some (VRef l) =>
        match heap w !! l with
        | Some (Estimator e) =>
            Some (match learned e with Some _ => trained | None => untrained end)
        | _ => None
        end
    | _ => None
    end.
Proof. unfold state_of, attr. now destruct (heap w !! self) as [[cls attrs|]|]. Qed.

(** [predict] reads the [model] attribute and the object it refers to,
    nothing else. *)
Lemma predict_agree w w' self X :
  attr w' self "model" = attr w self "model" ->
  (forall c, owns w self c -> heap w' !! c = heap w !! c) ->
  (predict self X w').1 = (predict self X w).1.
Proof.
  intros Ha Hc. unfold predict, mbind, py_bind, bind.
  rewrite !getattr_attr, Ha.
  destruct (attr w self "model") as [v|] eqn:Hm; [|reflexivity].
  destruct v as [| |c]; simpl; try reflexivity.
  - rewrite !getattr_attr, Ha, Hm. reflexivity.
  - rewrite !getattr_attr, Ha, Hm. simpl. rewrite (Hc c Hm).
    destruct (heap w !! c) as [[|e]|]; try reflexivity. now destruct (learned e).
Qed.

Lemma refit_keeps_attr w c e e' l name :
  heap w !! c = Some (Estimator e) ->
  attr (with_heap <[c := Estimator e']> w) l name = attr w l name.
Proof.
  intros Hc. unfold attr. simpl. destruct (decide (l = c)) as [->|Hne].
  - now rewrite lookup_insert_eq, Hc.
  - now rewrite lookup_insert_ne by congruence.
Qed.

(** X2: in a world where no classifier is shared, a call of [train] on one
    instance, whatever it does, leaves every other instance as it was: same
    [model] attribute, same state, and [predict] returns or raises exactly
    what it did before. *)
Theorem train_leaves_other_instances w a b X y X' :
  well_formed w -> a <> b ->
  let w' := (train a X y w).2 in
  attr w' b "model" = attr w b "model" /\
  state_of w' b = state_of w b /\
  (predict b X' w').1 = (predict b X' w).1.
Proof.
  intros Hwf Hab w'. subst w'.
  destruct (train_world a X y w) as [->|(c & e & st & Ho & Hc & _ & ->)]; [easy|].
  simpl.
  set (w' := with_heap _ w).
  assert (Hattr : attr w' b "model" = attr w b "model").
  { apply (refit_keeps_attr w c e _ b "model" Hc). }
  assert (Hown : forall d, owns w b d -> heap w' !! d = heap w !! d).
  { intros d Hd. subst w'. simpl. apply lookup_insert_ne. intros ->.
    apply Hab. destruct Hwf as [_ Hs]. exact (Hs a b d Ho Hd). }
  split; [exact Hattr|]. split.
  - rewrite !state_of_attr, Hattr.
    destruct (attr w b "model") as [[| |d]|] eqn:Hm; try reflexivity.
    now rewrite (Hown d Hm).
  - now apply predict_agree.
Qed.

(** X3: when [fit] succeeds on the instance's classifier, [train] followed
    by [predict] returns the classifier's inference from the state just
    learned; whatever the classifier had learned before plays no part. *)
Theorem train_then_predict w self cls attrs c e X y st X' :
  heap w !! self = Some (Object cls attrs) ->
  attrs !! "model" = Some (VRef c) ->
  heap w !! c = Some (Estimator e) ->
  learn (params e) X y = Ok st ->
  ((train self X y;; predict self X') w).1 = infer (params e) st X' /\
  state_of ((train self X y;; predict self X') w).2 self = Some trained.
Proof.
  intros Hs Hm Hc Hl.
  assert (Hne : c <> self) by (intros ->; congruence).
  set (w' := with_heap <[c := Estimator (Estimator_ (params e) (Some st))]> w).
  assert (T : train self X y w = (Ok tt, w')).
  { unfold train. erewrite bind_ok by (eapply getattr_ok; eassumption). simpl.
    erewrite bind_ok by (eapply getattr_ok; eassumption).
    unfold fit. now rewrite Hc, Hl. }
  assert (Hs' : heap w' !! self = Some (Object cls attrs)).
  { simpl. now rewrite lookup_insert_ne. }
  assert (Hc' : heap w' !! c = Some (Estimator (Estimator_ (params e) (Some st)))).
  { simpl. apply lookup_insert_eq. }
  erewrite bind_ok by exact T.
  rewrite (predict_classifier w' self cls attrs c _ X' Hs' Hm Hc'). simpl.
  split; [reflexivity|]. unfold state_of. now rewrite Hs', Hm, Hc'.
Qed.

(** X4: a [load] that fails changes nothing.  A path with no file raises
    the I/O error; a file pickle cannot read raises pickle's error; either
    way the instance keeps the classifier it had and no object is created. *)
Theorem failed_load_changes_nothing w self filepath :
  (files w !! filepath = None ->
     load self filepath w = (Err (OSError filepath), w)) /\
  (forall bs e,
     files w !! filepath = Some bs -> pickle_loads bs = Err e ->
     load self filepath w = (Err e, w)).
Proof.
  split.
  - intros Hf. unfold load. apply bind_err. unfold open_rb. now rewrite Hf.
  - intros bs e Hf Hl. unfold load.
    erewrite bind_ok by (unfold open_rb; rewrite Hf; reflexivity).
    apply bind_err. unfold pickle_load. apply bind_err. unfold lift. now rewrite Hl.
Qed.

(** X5: [save] to a path that cannot be opened for writing raises the I/O
    error before anything is read or written: no file is created or
    truncated and no object changes, whatever the instance. *)
Theorem save_to_unwritable_path w self filepath :
  filepath ∈ unwritable w ->
  save self filepath w = (Err (OSError filepath), w).
Proof.
  intros Hw. unfold save. apply bind_err. unfold open_wb.
  now rewrite decide_True by exact Hw.
Qed.

Lemma save_files self filepath w p :
  p <> filepath -> files (save self filepath w).2 !! p = files w !! p.
Proof.
  intros Hp. unfold save.
  apply (bind_snd _ _ (fun w' => files w' !! p = files w !! p)).
  { unfold open_wb. destruct (decide _); [easy|]. simpl.
    now rewrite lookup_insert_ne by congruence. }
  intros _ w1 Hw1. apply (bind_snd _ _ (fun w' => files w' !! p = files w !! p)).
  { now rewrite getattr_frame. }
  intros m w2 Hw2. unfold pickle_dump.
  apply (bind_snd _ _ (fun w' => files w' !! p = files w !! p)).
  { unfold to_pickled. destruct m as [| |l]; try easy.
    now destruct (heap w2 !! l) as [[|]|]. }
  intros q w3 Hw3. unfold write. simpl. now rewrite lookup_insert_ne by congruence.
Qed.

Lemma save_unwritable_set self filepath w :
  unwritable (save self filepath w).2 = unwritable w.
Proof.
  unfold save. apply (bind_snd _ _ (fun w' => unwritable w' = unwritable w)).
  { unfold open_wb. now destruct (decide _). }
  intros _ w1 Hw1. apply (bind_snd _ _ (fun w' => unwritable w' = unwritable w)).
  { now rewrite getattr_frame. }
  intros m w2 Hw2. unfold pickle_dump.
  apply (bind_snd _ _ (fun w' => unwritable w' = unwritable w)); [|easy].
  unfold to_pickled. destruct m as [| |l]; try easy.
  now destruct (heap w2 !! l) as [[|]|].
Qed.

(** X6: whatever the instance and whether it returns or raises, [save]
    changes no object and no file other than the one at [filepath]. *)
Theorem save_touches_one_file w self filepath :
  heap (save self filepath w).2 = heap w /\
  unwritable (save self filepath w).2 = unwritable w /\
  forall p, p <> filepath -> files (save self filepath w).2 !! p = files w !! p.
Proof.
  split; [apply save_heap|]. split; [apply save_unwritable_set|].
  intros p Hp. now apply save_files.
Qed.

(** X7: [save] has no guard on the state of the instance.  In each of the
    three states (no classifier, never fitted, fitted) [save] to a writable
    path succeeds and replaces the file by the serialization of what the
    [model] attribute holds: [None], or the classifier as it is. *)
Theorem save_succeeds_in_every_state w self s filepath :
  state_of w self = Some s ->
  filepath ∉ unwritable w ->
  exists p,
    save self filepath w = (Ok tt, with_files <[filepath := pickle_dumps p]> w) /\
    (s = uninitialized -> p = PNone) /\
    (s <> uninitialized ->
       exists c e, owns w self c /\ heap w !! c = Some (Estimator e) /\
                   p = PEstimator e /\
                   (s = trained <-> is_Some (learned e))).
Proof.
  intros Hst Hw. unfold state_of in Hst.
  destruct (heap w !! self) as [[cls attrs|]|] eqn:Hs; try easy.
  destruct (attrs !! "model") as [[| |c]|] eqn:Hm; try easy.
  - injection Hst as <-. exists PNone. split; [|easy].
    apply (save_ok w self cls attrs VNone PNone); auto.
  - destruct (heap w !! c) as [[|e]|] eqn:Hc; try easy.
    injection Hst as <-. exists (PEstimator e). split.
    { apply (save_ok w self cls attrs (VRef c) (PEstimator e)); auto.
      simpl. now rewrite Hc. }
    split; [now destruct (learned e)|]. intros _. exists c, e.
    split; [unfold owns, attr; now rewrite Hs|]. split; [exact Hc|].
    split; [reflexivity|].
    destruct (learned e); split; intros Q; try easy; try eauto. now destruct Q.
Qed.

(** X8: [load] does not check what it deserializes.  A file holding a
    pickled string loads without error into the [model] attribute; from then
    on [predict] and [train] raise [AttributeError] (the wrapper's own
    not-trained and not-initialized errors do not fire, the attribute not
    being [None]). *)
Theorem load_accepts_non_classifier w self cls attrs filepath bs s :
  heap w !! self = Some (Object cls attrs) ->
  files w !! filepath = Some bs ->
  pickle_loads bs = Ok (PStr s) ->
  let w' := with_heap <[self := Object cls (<["model" := VStr s]> attrs)]> w in
  load self filepath w = (Ok tt, w') /\
  (forall X, predict self X w' = (Err (AttributeError "predict"), w')) /\
  (forall X y, train self X y w' = (Err (AttributeError "fit"), w')).
Proof.
  intros Hs Hf Hl w'.
  assert (Hs' : heap w' !! self = Some (Object cls (<["model" := VStr s]> attrs))).
  { simpl. apply lookup_insert_eq. }
  assert (Hm : (<["model" := VStr s]> attrs) !! "model" = Some (VStr s))
    by apply lookup_insert_eq.
  split; [|split].
  - unfold load. erewrite bind_ok by (unfold open_rb; rewrite Hf; reflexivity).
    erewrite bind_ok.
    2:{ unfold pickle_load.
        erewrite bind_ok by (unfold lift; rewrite Hl; reflexivity). reflexivity. }
    now erewrite setattr_ok by exact Hs.
  - intros X. unfold predict.
    erewrite bind_ok by (eapply getattr_ok; eassumption). simpl.
    erewrite bind_ok by (eapply getattr_ok; eassumption). reflexivity.
  - intros X y. unfold train.
    erewrite bind_ok by (eapply getattr_ok; eassumption). simpl.
    erewrite bind_ok by (eapply getattr_ok; eassumption). reflexivity.
Qed.

(** ** Class and name of an instance *)

Lemma same_cell_same_view w w' l :
  heap w' !! l = heap w !! l -> l ∈ dom (heap w) ->
  l ∈ dom (heap w') /\ class_of w' l = class_of w l /\
  attr w' l "model_name" = attr w l "model_name".
Proof.
  intros E Hl. unfold class_of, attr. rewrite E. split; [|easy].
  apply elem_of_dom. rewrite E. now apply elem_of_dom.
Qed.

Lemma new_variant_keeps w cls h name l :
  l ∈ dom (heap w) ->
  heap (new cls (fun self =>
      ModelBase__init__ self;;
      clf ← new_estimator h;
      setattr self "model" clf;;
      setattr self "model_name" (VStr name)) w).2 !! l = heap w !! l.
Proof.
  intros Hl. destruct (new_variant_ok w cls h name) as (l0 & c & Hl0 & Hc & _ & E).
  rewrite E. apply two_inserts_keep; intros ->; contradiction.
Qed.

Lemma exec_keeps_class_and_name c w l :
  l ∈ dom (heap w) ->
  l ∈ dom (heap (exec c w)) /\ class_of (exec c w) l = class_of w l /\
  attr (exec c w) l "model_name" = attr w l "model_name".
Proof.
  intros Hl.
  destruct c as [|md rs|ne md rs|key|self X y|self X|self X y|self fp|self fp]; simpl.
  - rewrite new_base_ok. apply same_cell_same_view; [|exact Hl].
    now apply alloc_lookup.
  - apply same_cell_same_view; [|exact Hl]. now apply new_variant_keeps.
  - apply same_cell_same_view; [|exact Hl]. now apply new_variant_keeps.
  - apply same_cell_same_view; [|exact Hl].
    unfold get_model. destruct (dict_get models key) as [cls|] eqn:Hk; [|easy].
    revert Hk. simpl. destruct (String.eqb key "decision_tree").
    { intros [= <-]. now apply new_variant_keeps. }
    destruct (String.eqb key "random_forest"); [|easy].
    intros [= <-]. now apply new_variant_keeps.
  - destruct (train_world self X y w) as [->|(c & e & st & _ & Hc & _ & ->)];
      [easy|]. simpl. split; [|split].
    + apply elem_of_dom. simpl. destruct (decide (l = c)) as [->|Hne].
      * rewrite lookup_insert_eq. eauto.
      * rewrite lookup_insert_ne by congruence. now apply elem_of_dom.
    + unfold class_of. simpl. destruct (decide (l = c)) as [->|Hne].
      * now rewrite lookup_insert_eq, Hc.
      * now rewrite lookup_insert_ne by congruence.
    + apply (refit_keeps_attr w c e _ l "model_name" Hc).
  - now rewrite predict_frame.
  - now rewrite evaluate_frame.
  - apply same_cell_same_view; [|exact Hl]. now rewrite save_heap.
  - destruct (load_world self fp w)
      as [->|[(c & e & Hc & ->)|[(cls & attrs & v & Hs & Hv & ->)
                                |(cls & attrs & c & e & Hs & Hc & ->)]]].
    + easy.
    + apply same_cell_same_view; [|exact Hl]. simpl.
      apply lookup_insert_ne. intros ->. contradiction.
    + destruct (decide (l = self)) as [->|Hne].
      * split; [apply elem_of_dom; simpl; rewrite lookup_insert_eq; eauto|].
        unfold class_of, attr. simpl. rewrite lookup_insert_eq, Hs.
        split; [reflexivity|]. now rewrite lookup_insert_ne by discriminate.
      * apply same_cell_same_view; [|exact Hl]. simpl.
        now rewrite lookup_insert_ne by congruence.
    + assert (l <> c) by (intros ->; contradiction).
      destruct (decide (l = self)) as [->|Hne].
      * split; [apply elem_of_dom; simpl; rewrite lookup_insert_eq; eauto|].
        unfold class_of, attr. simpl. rewrite lookup_insert_eq, Hs.
        split; [reflexivity|]. now rewrite lookup_insert_ne by discriminate.
      * apply same_cell_same_view; [|exact Hl]. now apply two_inserts_keep.
Qed.

(** X9: once an object exists, no sequence of calls of the interface
    changes its class or its [model_name]; in particular [load] replaces the
    classifier of an instance without touching its name, whatever variant
    the file came from. *)
Theorem class_and_name_never_change (cs : list api_call) w l :
  l ∈ dom (heap w) ->
  class_of (run cs w) l = class_of w l /\
  attr (run cs w) l "model_name" = attr w l "model_name".
Proof.
  revert w. induction cs as [|c cs IH]; intros w Hl; [easy|].
  destruct (exec_keeps_class_and_name c w l Hl) as (Hl' & Hc & Hn).
  simpl. destruct (IH (exec c w) Hl') as [IHc IHn].
  split; congruence.
Qed.

(** X10: the factory returns an instance exactly on the two keys of the
    registry, compared as they are (no case folding, no trimming), and never
    touches the file system. *)
Theorem get_model_succeeds_iff_registered key w :
  ((exists l, (get_model key w).1 = Ok l) <->
   key = "decision_tree" \/ key = "random_forest") /\
  files (get_model key w).2 = files w /\
  unwritable (get_model key w).2 = unwritable w.
Proof.
  destruct (String.eqb_spec key "decision_tree") as [->|H1].
  { destruct (get_model_ok w "decision_tree" _ _ _ eq_refl) as (l & c & _ & _ & _ & E).
    rewrite E. split; [|easy]. split; eauto. }
  destruct (String.eqb_spec key "random_forest") as [->|H2].
  { destruct (get_model_ok w "random_forest" _ _ _ eq_refl) as (l & c & _ & _ & _ & E).
    rewrite E. split; [|easy]. split; eauto. }
  assert (E : get_model key w = (Err (UnknownModelTypeError key), w)).
  { unfold get_model. simpl.
    destruct (String.eqb_spec key "decision_tree"); [contradiction|].
    destruct (String.eqb_spec key "random_forest"); [contradiction|]. reflexivity. }
  rewrite E. split; [|easy]. split.
  - intros [l Q]. discriminate Q.
  - intros [Q|Q]; contradiction.
Qed.

(** X11: [predict] and [evaluate] change nothing, whatever the instance
    and whether they return or raise; and when [predict] raises, [evaluate]
    raises the same error. *)
Theorem queries_are_read_only w self X y :
  (predict self X w).2 = w /\
  (evaluate self X y w).2 = w /\
  forall e, (predict self X w).1 = Err e -> (evaluate self X y w).1 = Err e.
Proof.
  split; [apply predict_frame|]. split; [apply evaluate_frame|].
  intros e He. pose proof (predict_frame self X w) as Hw.
  destruct (predict self X w) as [r w'] eqn:P. simpl in *. subst.
  now rewrite (evaluate_predict_err w self X y e P).
Qed.

End Properties.

(** * The statements on concrete data *)

Import Tiny.

(** C1, counterexample to the claim as stated: the decision tree the
    factory returns is object 1 of [fresh_world]; [predict] on it raises
    scikit-learn's not-fitted error, which is not the wrapper's not-trained
    error, and so does [evaluate]. *)
Lemma predict_on_fresh_instance_is_not_NotTrainedError :
  get_model "decision_tree" empty_world = (Ok 1%positive, fresh_world) /\
  (predict 1%positive (arr [1]) fresh_world).1 =
    Err (NotFittedError
      "This DecisionTreeClassifier instance is not fitted yet. Call 'fit' with appropriate arguments before using this estimator.") /\
  (predict 1%positive (arr [1]) fresh_world).1 <> Err NotTrainedError /\
  (evaluate 1%positive (arr [1]) (arr [0]) fresh_world).1 <> Err NotTrainedError.
Proof.
  assert (P : (predict 1%positive (arr [1]) fresh_world).1 =
    Err (NotFittedError
      "This DecisionTreeClassifier instance is not fitted yet. Call 'fit' with appropriate arguments before using this estimator."))
    by reflexivity.
  assert (E : (evaluate 1%positive (arr [1]) (arr [0]) fresh_world).1 =
    Err (NotFittedError
      "This DecisionTreeClassifier instance is not fitted yet. Call 'fit' with appropriate arguments before using this estimator."))
    by reflexivity.
  split; [reflexivity|]. split; [exact P|].
  split; [rewrite P|rewrite E]; discriminate.
Qed.

Lemma predict_before_training_witness :
  ("decision_tree" = "decision_tree" \/ "decision_tree" = "random_forest") /\
  heap base_world !! 1%positive = Some (Object ModelBase base_attrs) /\
  base_attrs !! "model" = Some VNone /\
  predict 1%positive (arr [1]) base_world = (Err NotTrainedError, base_world) /\
  exists l w' h,
    get_model "decision_tree" base_world = (Ok l, w') /\
    predict l (arr [1]) w' = (Err (NotFittedError (not_fitted_msg h)), w').
Proof.
  pose proof (predict_before_training base_world "decision_tree" (arr [1]) (arr [0])
                (or_introl eq_refl)) as [(l & w' & h & G & P & _) Q].
  destruct (Q 1%positive ModelBase base_attrs eq_refl eq_refl) as [Q1 _].
  split; [left; reflexivity|]. split; [reflexivity|]. split; [reflexivity|].
  split; [exact Q1|]. exists l, w', h. split; [exact G|exact P].
Defined.

Lemma evaluate_spec_witness :
  predict 1%positive (arr [0; 12; 5; 7]) trained_world
    = (Ok (arr [0; 1; 0; 1]), trained_world) /\
  evaluate 1%positive (arr [0; 12; 5; 7]) (arr [0; 1; 1; 1]) trained_world
    = (Ok [("precision", MFloat (7 # 8)%Q); ("recall", MFloat (3 # 4)%Q);
           ("f1_score", MFloat (21 # 26)%Q)], trained_world) /\
  evaluate 1%positive (arr [1]) (arr [5]) trained_world
    = (Ok [("precision", MFloat 0%Q); ("recall", MFloat 0%Q);
           ("f1_score", MInt 0)], trained_world).
Proof.
  split; [reflexivity|]. split.
  - apply (proj1 (evaluate_spec trained_world 1%positive
                    (arr [0; 12; 5; 7]) (arr [0; 1; 1; 1]) (arr [0; 1; 0; 1])
                    (7 # 8)%Q (3 # 4)%Q eq_refl eq_refl eq_refl)
                 (21 # 26)%Q eq_refl eq_refl).
  - apply (proj2 (evaluate_spec trained_world 1%positive
                    (arr [1]) (arr [5]) (arr [0]) 0%Q 0%Q eq_refl eq_refl eq_refl)
                 eq_refl).
Defined.

Lemma get_model_returns_fresh_untrained_witness :
  ("random_forest" = "decision_tree" \/ "random_forest" = "random_forest") /\
  exists l w',
    get_model "random_forest" fresh_world = (Ok l, w') /\
    (l ∉ dom (heap fresh_world)) /\
    class_of w' l = Some RandomForestModel /\
    attr w' l "model_name" = Some (VStr "RandomForest") /\
    state_of w' l = Some untrained.
Proof.
  split; [right; reflexivity|].
  destruct (get_model_returns_fresh_untrained fresh_world "random_forest"
              (or_intror eq_refl)) as (l & w' & G & F & C & N & S & _).
  exists l, w'. repeat split; assumption.
Defined.

Lemma get_model_unknown_key_witness :
  "svm" <> "decision_tree" /\ "svm" <> "random_forest" /\
  get_model "svm" empty_world =
    (Err (ValueError
       "Unknown model type: svm. Available: ['decision_tree', 'random_forest']"),
     empty_world).
Proof.
  assert (H1 : "svm" <> "decision_tree") by discriminate.
  assert (H2 : "svm" <> "random_forest") by discriminate.
  split; [exact H1|]. split; [exact H2|].
  exact (proj1 (get_model_unknown_key empty_world "svm" H1 H2)).
Defined.

Lemma save_load_roundtrip_witness :
  heap trained_world !! 1%positive = Some (Object DecisionTreeModel tree_attrs) /\
  heap trained_world !! 2%positive = Some (Estimator trained_tree) /\
  ("model.pkl" ∉ unwritable trained_world) /\
  pickle_loads (pickle_dumps (PEstimator trained_tree)) = Ok (PEstimator trained_tree) /\
  exists b w',
    (save 1%positive "model.pkl";; b ← get_model "decision_tree";
     load b "model.pkl";; mret b) trained_world = (Ok b, w') /\
    b <> 1%positive /\
    state_of w' b = Some trained /\
    forall X, (predict b X w').1 = (predict 1%positive X trained_world).1.
Proof.
  assert (Hw : "model.pkl" ∉ unwritable trained_world) by apply not_elem_of_empty.
  assert (Hrt : pickle_loads (pickle_dumps (PEstimator trained_tree))
                = Ok (PEstimator trained_tree)) by reflexivity.
  split; [reflexivity|]. split; [reflexivity|]. split; [exact Hw|].
  split; [exact Hrt|].
  destruct (save_load_roundtrip trained_world 1%positive DecisionTreeModel tree_attrs
              2%positive trained_tree four_points "model.pkl" "decision_tree"
              eq_refl eq_refl eq_refl eq_refl Hw Hrt (or_introl eq_refl))
    as (b & w' & E & Hne & _ & S & P).
  exists b, w'. split; [exact E|]. split; [exact Hne|]. split; [exact S|].
  intros X. apply (P X).
Defined.

Lemma train_spec_witness :
  heap base_world !! 1%positive = Some (Object ModelBase base_attrs) /\
  train 1%positive (arr [1]) (arr [0]) base_world
    = (Err NotInitializedError, base_world) /\
  heap fresh_world !! 1%positive = Some (Object DecisionTreeModel tree_attrs) /\
  heap fresh_world !! 2%positive = Some (Estimator untrained_tree) /\
  learn (DecisionTreeClassifier 10 42) (arr [1; 2; 10; 11]) (arr [0; 0; 1; 1])
    = Ok four_points /\
  (train 1%positive (arr [1; 2; 10; 11]) (arr [0; 0; 1; 1]) fresh_world).1 = Ok tt /\
  state_of (train 1%positive (arr [1; 2; 10; 11]) (arr [0; 0; 1; 1]) fresh_world).2
           1%positive = Some trained.
Proof.
  split; [reflexivity|]. split.
  { exact (proj1 (train_spec base_world 1%positive ModelBase base_attrs
                    (arr [1]) (arr [0]) eq_refl) eq_refl). }
  split; [reflexivity|]. split; [reflexivity|]. split; [reflexivity|].
  pose proof (proj2 (train_spec fresh_world 1%positive DecisionTreeModel tree_attrs
                       (arr [1; 2; 10; 11]) (arr [0; 0; 1; 1]) eq_refl)
                2%positive untrained_tree four_points eq_refl eq_refl eq_refl) as Q.
  cbv zeta in Q. destruct Q as (T & _ & S).
  rewrite T. split; [reflexivity|exact S].
Defined.

(** C7, counterexample to the claim as stated: save a decision tree that
    was never trained and load the file into a second instance (object 3).
    Every step succeeds and the file deserializes to a classifier, yet the
    loading instance is untrained, not trained, and [predict] on it raises
    the classifier's not-fitted error. *)
Lemma load_of_unfitted_classifier_is_untrained :
  (save_untrained_then_load empty_world).1 = Ok 3%positive /\
  (exists bs,
     files (save_untrained_then_load empty_world).2 !! "model.pkl" = Some bs /\
     pickle_loads bs = Ok (PEstimator untrained_tree)) /\
  state_of (save_untrained_then_load empty_world).2 3%positive = Some untrained /\
  state_of (save_untrained_then_load empty_world).2 3%positive <> Some trained /\
  raises (predict 3%positive (arr [1]) (save_untrained_then_load empty_world).2).1.
Proof.
  split; [reflexivity|].
  split. { exists (pickle_dumps (PEstimator untrained_tree)). split; reflexivity. }
  assert (S : state_of (save_untrained_then_load empty_world).2 3%positive
              = Some untrained) by reflexivity.
  split; [exact S|]. split; [rewrite S; discriminate|].
  eexists. reflexivity.
Qed.

Lemma load_replaces_classifier_witness :
  heap saved_world !! 1%positive = Some (Object DecisionTreeModel tree_attrs) /\
  files saved_world !! "model.pkl" = Some (pickle_dumps (PEstimator trained_tree)) /\
  pickle_loads (pickle_dumps (PEstimator trained_tree)) = Ok (PEstimator trained_tree) /\
  exists c w',
    load 1%positive "model.pkl" saved_world = (Ok tt, w') /\
    c <> 2%positive /\
    attr w' 1%positive "model" = Some (VRef c) /\
    heap w' !! c = Some (Estimator trained_tree) /\
    state_of w' 1%positive = Some trained.
Proof.
  assert (Hrt : pickle_loads (pickle_dumps (PEstimator trained_tree))
                = Ok (PEstimator trained_tree)) by reflexivity.
  split; [reflexivity|]. split; [reflexivity|]. split; [exact Hrt|].
  destruct (load_replaces_classifier saved_world 1%positive DecisionTreeModel tree_attrs
              "model.pkl" (pickle_dumps (PEstimator trained_tree)) trained_tree
              eq_refl eq_refl Hrt)
    as (c & w' & L & F & A & Hc & _ & _ & _ & S & _).
  exists c, w'. split; [exact L|]. split.
  { intros ->. apply F. apply elem_of_dom. eexists. reflexivity. }
  split; [exact A|]. split; [exact Hc|exact S].
Defined.

Lemma readers_preserve_instance_witness :
  state_of trained_world 1%positive = Some trained /\
  (predict 1%positive (arr [5]) trained_world).2 = trained_world /\
  (evaluate 1%positive (arr [5]) (arr [0]) trained_world).2 = trained_world /\
  heap (save 1%positive "model.pkl" trained_world).2 = heap trained_world /\
  state_of (save 1%positive "model.pkl" trained_world).2 1%positive = Some trained.
Proof.
  pose proof (readers_preserve_instance trained_world 1%positive (arr [5]) (arr [0])
                "model.pkl" eq_refl) as Q.
  cbv zeta in Q. destruct Q as (P & E & Hh & _ & _ & S).
  split; [reflexivity|]. split; [exact P|]. split; [exact E|].
  split; [exact Hh|exact S].
Defined.

Lemma save_load_without_classifier_witness :
  heap mixed_world !! 3%positive = Some (Object ModelBase base_attrs) /\
  state_of mixed_world 1%positive = Some trained /\
  ("none.pkl" ∉ unwritable mixed_world) /\
  pickle_loads (pickle_dumps PNone) = Ok PNone /\
  exists w1 w2,
    save 3%positive "none.pkl" mixed_world = (Ok tt, w1) /\
    files w1 !! "none.pkl" = Some (pickle_dumps PNone) /\
    load 1%positive "none.pkl" w1 = (Ok tt, w2) /\
    attr w2 1%positive "model" = Some VNone /\
    predict 1%positive (arr [1]) w2 = (Err NotTrainedError, w2).
Proof.
  assert (Hw : "none.pkl" ∉ unwritable mixed_world) by apply not_elem_of_empty.
  split; [reflexivity|]. split; [reflexivity|]. split; [exact Hw|].
  assert (Hrt : pickle_loads (pickle_dumps PNone) = Ok PNone) by reflexivity.
  split; [exact Hrt|].
  destruct (save_load_without_classifier mixed_world 3%positive ModelBase base_attrs
              "none.pkl" eq_refl eq_refl Hw Hrt) as (w1 & S & F & Hh & L).
  destruct (L 1%positive DecisionTreeModel tree_attrs) as (w2 & L2 & A & _ & P).
  { rewrite Hh. reflexivity. }
  exists w1, w2. split; [exact S|]. split; [exact F|]. split; [exact L2|].
  split; [exact A|apply P].
Defined.

(** * Further statements on concrete data *)

Lemma two_models_world_well_formed : well_formed two_models_world.
Proof.
  unfold two_models_world, empty_world.
  apply run_well_formed, empty_heap_well_formed.
Qed.


Lemma train_leaves_other_instances_witness :
  well_formed two_models_world /\ 1%positive <> 3%positive /\
  (train 1%positive (arr [1; 2]) (arr [0; 1]) two_models_world).1 = Ok tt /\
  state_of (train 1%positive (arr [1; 2]) (arr [0; 1]) two_models_world).2 3%positive
    = Some untrained /\
  (predict 3%positive (arr [1])
     (train 1%positive (arr [1; 2]) (arr [0; 1]) two_models_world).2).1
    = (predict 3%positive (arr [1]) two_models_world).1.
Proof.
  assert (Hne : 1%positive <> 3%positive) by discriminate.
  pose proof (train_leaves_other_instances two_models_world 1%positive 3%positive
                (arr [1; 2]) (arr [0; 1]) (arr [1])
                two_models_world_well_formed Hne) as Q.
  cbv zeta in Q. destruct Q as (_ & S & P).
  split; [exact two_models_world_well_formed|]. split; [exact Hne|].
  split; [reflexivity|]. split; [|exact P].
  rewrite S. reflexivity.
Defined.

Lemma train_then_predict_witness :
  heap trained_world !! 1%positive = Some (Object DecisionTreeModel tree_attrs) /\
  heap trained_world !! 2%positive = Some (Estimator trained_tree) /\
  learn (DecisionTreeClassifier 10 42) (arr [5; 6]) (arr [1; 0]) = Ok [(5, 1); (6, 0)] /\
  ((train 1%positive (arr [5; 6]) (arr [1; 0]);; predict 1%positive (arr [5; 100]))
     trained_world).1 = Ok (arr [1; 0]).
Proof.
  split; [reflexivity|]. split; [reflexivity|]. split; [reflexivity|].
  exact (proj1 (train_then_predict trained_world 1%positive DecisionTreeModel tree_attrs
                  2%positive trained_tree (arr [5; 6]) (arr [1; 0]) [(5, 1); (6, 0)]
                  (arr [5; 100]) eq_refl eq_refl eq_refl eq_refl)).
Defined.

Lemma failed_load_changes_nothing_witness :
  files trained_world !! "missing.pkl" = None /\
  load 1%positive "missing.pkl" trained_world
    = (Err (OSError "missing.pkl"), trained_world) /\
  files corrupt_world !! "bad.pkl" = Some [x07] /\
  pickle_loads [x07] = Err UnpicklingError /\
  load 1%positive "bad.pkl" corrupt_world = (Err UnpicklingError, corrupt_world).
Proof.
  assert (Hl : pickle_loads [x07] = Err UnpicklingError) by reflexivity.
  split; [reflexivity|]. split.
  { exact (proj1 (failed_load_changes_nothing trained_world 1%positive "missing.pkl")
                 eq_refl). }
  split; [reflexivity|]. split; [exact Hl|].
  exact (proj2 (failed_load_changes_nothing corrupt_world 1%positive "bad.pkl")
               [x07] UnpicklingError eq_refl Hl).
Defined.

Lemma save_to_unwritable_path_witness :
  ("/readonly/model.pkl" ∈ unwritable readonly_world) /\
  save 1%positive "/readonly/model.pkl" readonly_world
    = (Err (OSError "/readonly/model.pkl"), readonly_world).
Proof.
  assert (Hw : "/readonly/model.pkl" ∈ unwritable readonly_world).
  { apply elem_of_singleton_2. reflexivity. }
  split; [exact Hw|].
  exact (save_to_unwritable_path readonly_world 1%positive "/readonly/model.pkl" Hw).
Defined.

Lemma save_touches_one_file_witness :
  "bad.pkl" <> "model.pkl" /\
  files (save 1%positive "model.pkl" corrupt_world).2 !! "bad.pkl" = Some [x07].
Proof.
  assert (Hp : "bad.pkl" <> "model.pkl") by discriminate.
  split; [exact Hp|].
  rewrite (proj2 (proj2 (save_touches_one_file corrupt_world 1%positive "model.pkl"))
             "bad.pkl" Hp).
  reflexivity.
Defined.

Lemma save_succeeds_in_every_state_witness :
  state_of fresh_world 1%positive = Some untrained /\
  ("model.pkl" ∉ unwritable fresh_world) /\
  exists p,
    save 1%positive "model.pkl" fresh_world
      = (Ok tt, with_files <["model.pkl" := pickle_dumps p]> fresh_world).
Proof.
  assert (Hw : "model.pkl" ∉ unwritable fresh_world) by apply not_elem_of_empty.
  split; [reflexivity|]. split; [exact Hw|].
  destruct (save_succeeds_in_every_state fresh_world 1%positive untrained "model.pkl"
              eq_refl Hw) as (p & S & _).
  exists p. exact S.
Defined.

Lemma load_accepts_non_classifier_witness :
  heap string_file_world !! 1%positive = Some (Object DecisionTreeModel tree_attrs) /\
  files string_file_world !! "text.pkl" = Some (pickle_dumps (PStr "hello")) /\
  pickle_loads (pickle_dumps (PStr "hello")) = Ok (PStr "hello") /\
  (load 1%positive "text.pkl" string_file_world).1 = Ok tt /\
  (predict 1%positive (arr [1]) (load 1%positive "text.pkl" string_file_world).2).1
    = Err (AttributeError "predict").
Proof.
  assert (Hl : pickle_loads (pickle_dumps (PStr "hello")) = Ok (PStr "hello"))
    by reflexivity.
  pose proof (load_accepts_non_classifier string_file_world 1%positive
                DecisionTreeModel tree_attrs "text.pkl" (pickle_dumps (PStr "hello"))
                "hello" eq_refl eq_refl Hl) as Q.
  cbv zeta in Q. destruct Q as (L & P & _).
  split; [reflexivity|]. split; [reflexivity|]. split; [exact Hl|].
  rewrite L. simpl. split; [reflexivity|]. now rewrite P.
Defined.

Lemma class_and_name_never_change_witness :
  3%positive ∈ dom (heap two_models_world) /\
  attr (run [Call_train 1%positive (arr [1; 2]) (arr [0; 1]);
             Call_save 1%positive "model.pkl";
             Call_load 3%positive "model.pkl"] two_models_world)
       3%positive "model_name" = Some (VStr "RandomForest").
Proof.
  assert (Hl : 3%positive ∈ dom (heap two_models_world)).
  { apply elem_of_dom. eexists. reflexivity. }
  split; [exact Hl|].
  rewrite (proj2 (class_and_name_never_change
             [Call_train 1%positive (arr [1; 2]) (arr [0; 1]);
              Call_save 1%positive "model.pkl";
              Call_load 3%positive "model.pkl"] two_models_world 3%positive Hl)).
  reflexivity.
Defined.

Lemma get_model_succeeds_iff_registered_witness :
  exists l, (get_model "random_forest" empty_world).1 = Ok l.
Proof.
  apply (proj1 (get_model_succeeds_iff_registered "random_forest" empty_world)).
  right. reflexivity.
Defined.

Lemma queries_are_read_only_witness :
  (predict 1%positive (arr [1]) fresh_world).1
    = Err (NotFittedError (not_fitted_msg (DecisionTreeClassifier 10 42))) /\
  (evaluate 1%positive (arr [1]) (arr [0]) fresh_world).1
    = Err (NotFittedError (not_fitted_msg (DecisionTreeClassifier 10 42))).
Proof.
  split; [reflexivity|].
  apply (proj2 (proj2 (queries_are_read_only fresh_world 1%positive (arr [1]) (arr [0])))).
  reflexivity.
Defined.
